(** * JumpCloud search bot: extraction, formatting and size bounding

    A shallow embedding of the response pipeline of the repository
    (src/bot/jc-cli.py, src/bot/appv1.py, src/bot/app.py):

    - the Python values that flow through it (JSON data, the MCP result
      envelope), with the run-time operations the code applies to them;
    - [_extract_inner_json_from_search_api_result], the two versions of
      [_format_search_api_results], the message builders and the Slack
      handlers, written in a small exception monad;
    - the properties of the specification, proved on these definitions. *)

From Stdlib Require Import String Ascii DecimalString Floats.
From Stdlib Require Import ZArith NArith List Bool Lia.
Import ListNotations.

Set Warnings "-register-all".

(** ** Python strings

    A Python [str] is a sequence of Unicode code points; [len] counts code
    points and slicing cuts between them.  A string is a list of code
    points, and a literal of the source is written [lit "..."] when it is
    ASCII. *)

Definition pystr := list N.

Definition lit (s : string) : pystr :=
  map N_of_ascii (list_ascii_of_string s).

Arguments lit s%_string.

(** The newline character, written [\n] in the source. *)
Definition nl : pystr := [10%N].

Definition pystr_eqb (a b : pystr) : bool :=
  if list_eq_dec N.eq_dec a b then true else false.

(** [sep.join(items)] for items that are all [str]. *)
Fixpoint join (sep : pystr) (items : list pystr) : pystr :=
  match items with
  | [] => []
  | [s] => s
  | s :: rest => s ++ sep ++ join sep rest
  end.

(** [str.isspace] for one character: the code points CPython's
    [Py_UNICODE_ISSPACE] accepts, which [str.strip()] removes. *)
Definition isspace (c : N) : bool :=
  ((9 <=? c) && (c <=? 13) || (28 <=? c) && (c <=? 32) ||
   (c =? 133) || (c =? 160) || (c =? 5760) ||
   (8192 <=? c) && (c <=? 8202) ||
   (c =? 8232) || (c =? 8233) || (c =? 8239) || (c =? 8287) ||
   (c =? 12288))%N.

Fixpoint lstrip (s : pystr) : pystr :=
  match s with
  | c :: s' => if isspace c then lstrip s' else s
  | [] => []
  end.

Definition rstrip (s : pystr) : pystr := rev (lstrip (rev s)).

Definition strip (s : pystr) : pystr := rstrip (lstrip s).

(** [str(n)] for an [int]. *)
Definition str_of_Z (z : Z) : pystr := lit (NilZero.string_of_int (Z.to_int z)).

Definition str_of_nat (n : nat) : pystr := str_of_Z (Z.of_nat n).

(** ** Python values

    The data that [json.loads] produces: [None], [bool], [int], [float]
    (an IEEE double), [str], [list] and [dict] with [str] keys.  A [dict]
    is kept as an association list in insertion order; lookups take the
    first binding of a key.

    An [int] of the decoder has at most 4300 digits: CPython refuses to
    convert a longer one from or to decimal text ([ValueError]), so
    [json.loads] never returns one.  [PInt] stands for these integers;
    [printable], below, says of a value that it is within the limit. *)

Inductive pyval : Type :=
| PNone
| PBool (b : bool)
| PInt (z : Z)
| PFloat (f : float)
| PStr (s : pystr)
| PList (l : list pyval)
| PDict (d : list (pystr * pyval)).

Definition dict := list (pystr * pyval).

(** Truth value of an object, as [if x:], [not x] and [x or y] test it. *)
Definition truthy (v : pyval) : bool :=
  match v with
  | PNone => false
  | PBool b => b
  | PInt z => negb (z =? 0)%Z
  | PFloat f => negb (PrimFloat.eqb f PrimFloat.zero)
  | PStr s => match s with [] => false | _ => true end
  | PList l => match l with [] => false | _ => true end
  | PDict d => match d with [] => false | _ => true end
  end.

(** [a or b]. *)
Definition py_or (a b : pyval) : pyval := if truthy a then a else b.

Definition is_None (v : pyval) : bool :=
  match v with PNone => true | _ => false end.

(** ** Integers that can be printed

    The largest number of digits that [str], [repr] and an f-string
    accept in an [int] ([sys.int_info.default_max_str_digits]). *)
Definition max_str_digits : nat := 4300.

(** No [int] inside the value has more than [max_str_digits] digits.
    On a longer one the conversion to text raises [ValueError]; the
    embedding prints every [PInt] and speaks for the code on printable
    values, the values of the decoder. *)
Fixpoint printable (v : pyval) : bool :=
  match v with
  | PInt z => (length (str_of_Z (Z.abs z)) <=? max_str_digits)%nat
  | PList l => forallb printable l
  | PDict d => forallb (fun kv => printable (snd kv)) d
  | _ => true
  end.

(** ** Exceptions

    Only subclasses of [Exception] occur: every [except] clause of the
    source is [except Exception]. *)

Inductive exn : Type :=
| TypeError
| AttributeError
| KeyError
| JSONDecodeError
| UnicodeEncodeError
| OtherException (msg : pystr).

Inductive py (A : Type) : Type :=
| Ok (a : A)
| Raise (e : exn).

Arguments Ok {A} a.
Arguments Raise {A} e.

Definition bind {A B} (m : py A) (k : A -> py B) : py B :=
  match m with
  | Ok a => k a
  | Raise e => Raise e
  end.

(** [try: body  except Exception: handler]. *)
Definition try_except {A} (body : py A) (handler : exn -> py A) : py A :=
  match body with
  | Ok a => Ok a
  | Raise e => handler e
  end.

Declare Scope py_scope.
Delimit Scope py_scope with py.
Notation "x <- m ;; k" := (bind m (fun x => k))
  (at level 61, m at next level, right associativity) : py_scope.
Open Scope py_scope.

(** ** Operations of the Python run time used by the source *)

Fixpoint dict_lookup (k : pystr) (d : dict) : option pyval :=
  match d with
  | [] => None
  | (k', v) :: d' => if pystr_eqb k' k then Some v else dict_lookup k d'
  end.

(** [d.get(key, default)] on a [dict]. *)
Definition dict_get (d : dict) (key : pystr) (default : pyval) : pyval :=
  match dict_lookup key d with
  | Some v => v
  | None => default
  end.

(** [obj.get(key, default)] on any object: only a [dict] has the method. *)
Definition get (obj : pyval) (key : pystr) (default : pyval) : py pyval :=
  match obj with
  | PDict d => Ok (dict_get d key default)
  | _ => Raise AttributeError
  end.

(** [len(obj)]. *)
Definition py_len (obj : pyval) : py nat :=
  match obj with
  | PStr s => Ok (length s)
  | PList l => Ok (length l)
  | PDict d => Ok (length d)
  | _ => Raise TypeError
  end.

(** [obj[:n]].  A [dict] refuses a slice ([TypeError] up to CPython 3.11,
    [KeyError] from 3.12, where a slice is hashable but is no key of a
    dict whose keys are strings). *)
Definition slice_to (obj : pyval) (n : nat) : py pyval :=
  match obj with
  | PStr s => Ok (PStr (firstn n s))
  | PList l => Ok (PList (firstn n l))
  | _ => Raise TypeError
  end.

(** The elements that [for x in obj] visits. *)
Definition py_iter (obj : pyval) : py (list pyval) :=
  match obj with
  | PStr s => Ok (map (fun c => PStr [c]) s)
  | PList l => Ok l
  | PDict d => Ok (map (fun kv => PStr (fst kv)) d)
  | _ => Raise TypeError
  end.

(** [a + b] where one operand is a [str], the only use in the source: it
    succeeds exactly when the other operand is a [str] too. *)
Definition py_add (a b : pyval) : py pyval :=
  match a, b with
  | PStr s, PStr t => Ok (PStr (s ++ t))
  | _, _ => Raise TypeError
  end.

(** [obj.strip()]. *)
Definition py_strip (obj : pyval) : py pystr :=
  match obj with
  | PStr s => Ok (strip s)
  | _ => Raise AttributeError
  end.

(** [sep.join(items)]: every item must be a [str]. *)
Fixpoint all_str (items : list pyval) : py (list pystr) :=
  match items with
  | [] => Ok []
  | PStr s :: rest => ss <- all_str rest ;; Ok (s :: ss)
  | _ :: _ => Raise TypeError
  end.

Definition str_join (sep : pystr) (items : list pyval) : py pystr :=
  ss <- all_str items ;; Ok (join sep ss).

(** ** The dictionary [field_map]

    [field_map] is a local [dict] whose keys are whatever the rows carry
    under ["field"]: an association list in insertion order, compared
    with Python's [==] on hashable objects.  Assigning to an existing key
    keeps its position (and the key object first inserted). *)

Definition hashable (v : pyval) : bool :=
  match v with
  | PList _ | PDict _ => false
  | _ => true
  end.

(** [float(f) == int(z)], which Python decides exactly. *)
Definition float_eq_Z (f : float) (z : Z) : bool :=
  match Prim2SF f with
  | S754_zero _ => (z =? 0)%Z
  | S754_finite s m e =>
      Bool.eqb s (z <? 0)%Z &&
      (if (0 <=? e)%Z then (Z.abs z =? Z.pos m * 2 ^ e)%Z
       else (Z.abs z * 2 ^ (- e) =? Z.pos m)%Z)
  | _ => false
  end.

(** [bool] is a subclass of [int]: [True == 1] and [False == 0]. *)
Definition as_int (v : pyval) : option Z :=
  match v with
  | PBool b => Some (if b then 1%Z else 0%Z)
  | PInt z => Some z
  | _ => None
  end.

(** Whether a [dict] takes [a] and [b] for one key: [a is b or a == b].
    The objects of a decoded payload are distinct, except that the
    decoder returns one and the same object for every [NaN]: two [NaN]
    are unequal and still one key. *)
Definition key_eq (a b : pyval) : bool :=
  match a, b with
  | PNone, PNone => true
  | PStr s, PStr t => pystr_eqb s t
  | PFloat f, PFloat g =>
      PrimFloat.eqb f g || (PrimFloat.is_nan f && PrimFloat.is_nan g)
  | PFloat f, _ => match as_int b with Some z => float_eq_Z f z | None => false end
  | _, PFloat g => match as_int a with Some z => float_eq_Z g z | None => false end
  | _, _ =>
      match as_int a, as_int b with
      | Some x, Some y => (x =? y)%Z
      | _, _ => false
      end
  end.

Definition fmap := list (pyval * pyval).

(** [field_map.get(key, default)]. *)
Fixpoint fmap_get (m : fmap) (key default : pyval) : pyval :=
  match m with
  | [] => default
  | (k, v) :: m' => if key_eq k key then v else fmap_get m' key default
  end.

Fixpoint fmap_set (m : fmap) (key val : pyval) : fmap :=
  match m with
  | [] => [(key, val)]
  | (k, v) :: m' =>
      if key_eq k key then (k, val) :: m' else (k, v) :: fmap_set m' key val
  end.

(** [field_map[key] = val]. *)
Definition setitem (m : fmap) (key val : pyval) : py fmap :=
  if hashable key then Ok (fmap_set m key val) else Raise TypeError.

(** ** The result envelope

    [CallToolResult] of the MCP SDK, as far as the source reads it with
    [getattr(_, name, None)]: an attribute is [None] here when the
    object does not have it.  The source takes any object for the
    envelope and tests no type but that of [structuredContent] and of
    [text]: [content] is a list of content blocks, as the SDK builds it,
    or any other value.  A block that is not a text block has no [text],
    and neither has a plain value. *)

Record ContentItem : Type := { text : option pyval }.

Inductive content_value : Type :=
| Items (items : list ContentItem)
| Other (v : pyval).

Record CallToolResult : Type := {
  structuredContent : option pyval;
  content : option content_value;
  isError : bool
}.

(** The truth value of [content], as [not content] tests it. *)
Definition content_truthy (c : content_value) : bool :=
  match c with
  | Items items => match items with [] => false | _ => true end
  | Other v => truthy v
  end.

(** The objects that [for item in content] visits.  The characters of
    a [str], the elements of a list of plain values and the keys of a
    [dict] are objects without [text]. *)
Definition content_iter (c : content_value) : py (list ContentItem) :=
  match c with
  | Items items => Ok items
  | Other v => vs <- py_iter v ;; Ok (map (fun _ => {| text := None |}) vs)
  end.

(** [getattr(obj, name, None)], given the attribute if the object has it. *)
Definition getattr (attr : option pyval) : pyval :=
  match attr with
  | Some v => v
  | None => PNone
  end.

(** ** Library functions the source calls

    Their results are left open: every theorem holds whatever they
    return or raise. *)

Class PyLib : Type := {
  (** [json.loads(s)] *)
  json_loads : pystr -> py pyval;
  (** [json.dumps(obj, indent=2)] *)
  json_dumps : pyval -> py pystr;
  (** [str(obj)] for a [float], a [list] or a [dict] *)
  py_repr : pyval -> pystr;
  (** [str(e)] for an exception *)
  str_exn : exn -> pystr;
  (** [result.model_dump_json(indent=2)] *)
  model_dump_json : CallToolResult -> py pystr;
  (** [str(result)] *)
  str_result : CallToolResult -> pystr
}.

(** The MCP client: entering [streamablehttp_client(url, headers=...)]
    and [ClientSession(read, write)], and the two session calls. *)
Class McpClient : Type := {
  streamablehttp_client : pystr -> list (pystr * pystr) -> py unit;
  initialize : py unit;
  call_tool : pystr -> dict -> py CallToolResult
}.

(** Environment variables read at import time. *)
Record Env : Type := {
  JC_MCP_URL : pystr;
  JC_API_KEY : option pystr
}.

(** [repr(s)] of a [str], which an f-string applies to [{s!r}]. *)
Class ReprLib : Type := {
  repr_str : pystr -> pystr
}.

(** The standard output, an open text stream: the characters that its
    encoder accepts.  Writing a text with another character raises
    [UnicodeEncodeError] and writes nothing of it (UTF-8, the usual
    encoding, refuses the lone surrogates, which a JSON text can
    hold). *)
Class Console : Type := {
  encodable : N -> bool
}.

(** [str(obj)], which an f-string applies to [{obj}], for a [printable]
    value (on an [int] of more than [max_str_digits] digits the
    conversion raises [ValueError] instead). *)
Definition py_str `{PyLib} (v : pyval) : pystr :=
  match v with
  | PNone => lit "None"
  | PBool true => lit "True"
  | PBool false => lit "False"
  | PInt z => str_of_Z z
  | PStr s => s
  | _ => py_repr v
  end.

(** ** Code shared verbatim by the front ends *)

Module Shared.
Section Shared.
Context `{PyLib} `{McpClient}.

(** [_mcp_search_api] (jc-cli.py:31-40, appv1.py:50-62, app.py:50-62). *)
Definition _mcp_search_api (env : Env) (query : pystr) : py CallToolResult :=
  let headers :=
    [(lit "Authorization",
      lit "Bearer " ++ py_str (match JC_API_KEY env with
                               | Some k => PStr k
                               | None => PNone
                               end))] in
  _ <- streamablehttp_client (JC_MCP_URL env) headers ;;
  _ <- initialize ;;
  result <- call_tool (lit "search_api") [(lit "query", PStr query)] ;;
  Ok result.

(** The body of the loop [for item in content] of the extractor:
    [Some inner] when it executes [return inner], [None] when control
    reaches the next iteration. *)
Definition scan_item (item : ContentItem) : py (option dict) :=
  let text_val := getattr (text item) in
  match text_val with
  | PStr s =>
      try_except
        (inner <- json_loads s ;;
         match inner with
         | PDict d => Ok (Some d)
         | _ => Ok None
         end)
        (fun _ => Ok None)
  | _ => Ok None
  end.

Fixpoint scan_content (items : list ContentItem) : py (option dict) :=
  match items with
  | [] => Ok None
  | item :: rest =>
      r <- scan_item item ;;
      match r with
      | Some inner => Ok (Some inner)
      | None => scan_content rest
      end
  end.

(** [_extract_inner_json_from_search_api_result] (jc-cli.py:50-86,
    appv1.py:78-118). *)
Definition _extract_inner_json_from_search_api_result
    (result : CallToolResult) : py (option dict) :=
  let structured := getattr (structuredContent result) in
  match structured with
  | PDict d => Ok (Some d)
  | _ =>
      match content result with
      | None => Ok None
      | Some content =>
          if negb (content_truthy content) then Ok None
          else items <- content_iter content ;; scan_content items
      end
  end.

(** The loop [for f in fields_list] that fills [field_map]
    (jc-cli.py:122-126, appv1.py:177-181). *)
Fixpoint reduce_fields (fields_list : list pyval) (field_map : fmap)
  : py fmap :=
  match fields_list with
  | [] => Ok field_map
  | f :: rest =>
      fname <- get f (lit "field") PNone ;;
      fval <- get f (lit "value") PNone ;;
      field_map <- (if truthy fname then setitem field_map fname fval
                    else Ok field_map) ;;
      reduce_fields rest field_map
  end.

(** The first lines of the loop over rows: [fields_list] and
    [field_map] of one row (jc-cli.py:120-126, appv1.py:174-181). *)
Definition row_field_map (row : pyval) : py fmap :=
  fl <- get row (lit "fields") (PList []) ;;
  let fields_list := py_or fl (PList []) in
  fs <- py_iter fields_list ;;
  reduce_fields fs [].

End Shared.
End Shared.

(** ** The command-line front end (src/bot/jc-cli.py) *)

Module JcCli.

(** How a call that may end the process with [sys.exit] comes back. *)
Inductive run (A : Type) : Type :=
| Exit (code : Z)
| Done (r : py A).

Arguments Exit {A} code.
Arguments Done {A} r.

Section JcCli.
Context `{PyLib} `{McpClient}.

(** [require_env] (jc-cli.py:20-26): the exit code, if it exits.  The
    messages it prints to [stderr] are left out. *)
Definition require_env (env : Env) : option Z :=
  if negb (truthy (match JC_API_KEY env with Some k => PStr k | None => PNone end))
  then Some 1%Z
  else if negb (truthy (PStr (JC_MCP_URL env))) then Some 1%Z
  else None.

(** [mcp_search_api_sync] (jc-cli.py:43-45). *)
Definition mcp_search_api_sync (env : Env) (query : pystr)
  : run CallToolResult :=
  match require_env env with
  | Some code => Exit code
  | None => Done (Shared._mcp_search_api env query)
  end.

Definition MAX_ROWS : nat := 20.

(** The body of the loop [for row in results[:MAX_ROWS]]
    (jc-cli.py:120-150): the line it appends to [lines]. *)
Definition format_row (row : pyval) : py pystr :=
  field_map <- Shared.row_field_map row ;;
  let fname := fmap_get field_map (PStr (lit "user.first_name")) (PStr []) in
  let lname := fmap_get field_map (PStr (lit "user.last_name")) (PStr []) in
  let email := fmap_get field_map (PStr (lit "user.email")) PNone in
  let username := fmap_get field_map (PStr (lit "user.username")) PNone in
  let uid := fmap_get field_map (PStr (lit "user.id")) PNone in
  if truthy (py_or username (py_or email uid)) then
    t <- py_add fname (PStr (lit " ")) ;;
    t <- py_add t lname ;;
    pretty_name <- py_strip t ;;
    let parts := [] in
    let parts := if truthy username then parts ++ [py_str username] else parts in
    let parts := if truthy (PStr pretty_name) then parts ++ [pretty_name] else parts in
    let parts := if truthy email
                 then parts ++ [lit "<" ++ py_str email ++ lit ">"] else parts in
    let parts := if truthy uid then parts ++ [lit "id=" ++ py_str uid] else parts in
    Ok (lit " - " ++ join (lit " | ") parts)
  else
    let field_parts :=
      map (fun kv => py_str (fst kv) ++ lit "=" ++ py_str (snd kv)) field_map in
    Ok (lit " - " ++ join (lit "; ") field_parts).

Fixpoint for_rows (rows : list pyval) (lines : list pyval) : py (list pyval) :=
  match rows with
  | [] => Ok lines
  | row :: rest =>
      line <- format_row row ;;
      for_rows rest (lines ++ [PStr line])
  end.

(** The results section of [_format_search_api_results]
    (jc-cli.py:112-155), from [if not results:] to the end, for the
    [lines] collected so far. *)
Definition results_section (results : pyval) (lines : list pyval) : py pystr :=
  if negb (truthy results) then
    str_join nl (lines ++ [PStr (lit "No results found.")])
  else
    n <- py_len results ;;
    let lines :=
      lines ++ [PStr (lit "Results (showing up to " ++ str_of_nat (Nat.min n 20)
                      ++ lit "):")] in
    shown <- slice_to results MAX_ROWS ;;
    rows <- py_iter shown ;;
    lines <- for_rows rows lines ;;
    let lines :=
      if (MAX_ROWS <? n)%nat
      then lines ++ [PStr (lit "... plus " ++ str_of_nat (n - MAX_ROWS)
                           ++ lit " more")]
      else lines in
    str_join nl lines.

(** [_format_search_api_results] (jc-cli.py:89-155). *)
Definition _format_search_api_results (inner : dict) : py pystr :=
  let explanation := dict_get inner (lit "explanation") PNone in
  let rationale := dict_get inner (lit "rationale") PNone in
  let query_result :=
    py_or (dict_get inner (lit "query_result") (PDict [])) (PDict []) in
  md <- get query_result (lit "metadata") (PDict []) ;;
  let metadata := py_or md (PDict []) in
  rs <- get query_result (lit "results") (PList []) ;;
  let results := py_or rs (PList []) in
  let lines : list pyval := [] in
  let lines :=
    if truthy explanation
    then lines ++ [PStr (lit "Explanation:"); explanation; PStr []]
    else lines in
  let lines :=
    if truthy rationale
    then lines ++ [PStr (lit "Why this query: " ++ py_str rationale); PStr []]
    else lines in
  qt <- get metadata (lit "queryTime") PNone ;;
  let lines :=
    if negb (is_None qt)
    then lines ++ [PStr (lit "Query time: " ++ py_str qt); PStr []]
    else lines in
  results_section results lines.

(** [format_for_cli] (jc-cli.py:158-170). *)
Definition format_for_cli (user_query : pystr) (result_obj : CallToolResult)
  : py pystr :=
  inner <- Shared._extract_inner_json_from_search_api_result result_obj ;;
  match inner with
  | None =>
      raw <- try_except (model_dump_json result_obj)
                        (fun _ => Ok (str_result result_obj)) ;;
      Ok (lit "Query: " ++ user_query ++ nl ++ nl
          ++ lit "Raw search_api result:" ++ nl ++ raw)
  | Some inner =>
      body <- _format_search_api_results inner ;;
      Ok (lit "Query: " ++ user_query ++ nl ++ nl ++ body)
  end.

(** [print(x)] for a [str]: the output after the call, and how the call
    ends.  It writes [x] and then a newline, which every encoding has. *)
Definition print `{Console} (out x : pystr) : pystr * py unit :=
  if forallb encodable x then (out ++ x ++ nl, Ok tt)
  else (out, Raise UnicodeEncodeError).

(** [input(prompt)]: it writes the prompt, and returns the line read or
    raises what reading raises (the parameter [input_line]). *)
Definition input `{Console} (out prompt : pystr) (input_line : py pystr)
  : pystr * py pystr :=
  if forallb encodable prompt then (out ++ prompt, input_line)
  else (out, Raise UnicodeEncodeError).

(** [main] (jc-cli.py:175-189): what it writes to [stdout] and how it
    ends, for the command line [argv] and the line that [input] reads
    (or the exception it raises at the end of input). *)
Definition main `{ReprLib} `{Console} (env : Env) (argv : list pystr)
    (input_line : py pystr) : pystr * run unit :=
  let run_query (out query : pystr) : pystr * run unit :=
    match print out (lit "Running search_api for: " ++ repr_str query
                     ++ lit " ..." ++ nl) with
    | (out, Raise e) => (out, Done (Raise e))
    | (out, Ok _) =>
        match mcp_search_api_sync env query with
        | Exit code => (out, Exit code)
        | Done (Raise e) => (out, Done (Raise e))
        | Done (Ok result_obj) =>
            match format_for_cli query result_obj with
            | Raise e => (out, Done (Raise e))
            | Ok msg =>
                match print out msg with
                | (out, r) => (out, Done r)
                end
            end
        end
    end in
  if (1 <? length argv)%nat then
    run_query [] (join (lit " ") (tl argv))
  else
    match print [] (lit "Enter JumpCloud search_api query (Ctrl+C to exit):")
    with
    | (out, Raise e) => (out, Done (Raise e))
    | (out, Ok _) =>
        match input out (lit "> ") input_line with
        | (out, Raise e) => (out, Done (Raise e))
        | (out, Ok line) =>
            let query := strip line in
            if negb (truthy (PStr query)) then
              match print out (lit "No query provided.") with
              | (out, r) => (out, Done r)
              end
            else run_query out query
        end
    end.

End JcCli.
End JcCli.

(** ** Start-up of the Slack front ends (src/bot/app.py and
    src/bot/appv1.py, lines 20-39, the same text) *)

Module Config.

(** [s.split(sep)] for a separator of one character. *)
Fixpoint split (sep : N) (s : pystr) : list pystr :=
  match s with
  | [] => [[]]
  | c :: s' =>
      if (c =? sep)%N then [] :: split sep s'
      else match split sep s' with
           | w :: ws => (c :: w) :: ws
           | [] => [[c]]
           end
  end.

Definition comma : N := 44%N.

(** The variables of the environment that the module reads. *)
Record SlackEnv : Type := {
  SLACK_BOT_TOKEN : option pystr;
  SLACK_SIGNING_SECRET : option pystr;
  JC_API_KEY : option pystr;
  ADMIN_USER_IDS_var : option pystr
}.

(** The value of an environment variable as [os.getenv] gives it. *)
Definition getenv (v : option pystr) : pyval :=
  match v with
  | Some s => PStr s
  | None => PNone
  end.

(** The set [ADMIN_USER_IDS] (lines 33-37), as the list of its elements
    in the order of the variable; an element may occur twice. *)
Definition ADMIN_USER_IDS (value : option pystr) : list pystr :=
  let text := match py_or (getenv value) (PStr []) with
              | PStr s => s
              | _ => []
              end in
  map strip (filter (fun uid => truthy (PStr (strip uid))) (split comma text)).

(** The checks at import time (lines 26-39): the exception that stops
    the module, or whether the warning about an empty allowlist is
    printed. *)
Definition startup (e : SlackEnv) : py bool :=
  if negb (truthy (getenv (SLACK_BOT_TOKEN e)))
     || negb (truthy (getenv (SLACK_SIGNING_SECRET e)))
  then Raise (OtherException
                (lit "SLACK_BOT_TOKEN and SLACK_SIGNING_SECRET must be set"))
  else if negb (truthy (getenv (JC_API_KEY e)))
  then Raise (OtherException (lit "JC_API_KEY (JumpCloud jca_ key) must be set"))
  else Ok (match ADMIN_USER_IDS (ADMIN_USER_IDS_var e) with
           | [] => true
           | _ => false
           end).

End Config.

(** ** The Slack front end with formatting (src/bot/appv1.py) *)

Module AppV1.
Section AppV1.
Context `{PyLib} `{McpClient}.

(** Characters of the source's literals outside ASCII. *)
Definition bullet : pystr := [8226%N].
Definition en_dash : pystr := [8211%N].
Definition ellipsis : pystr := [8230%N].
Definition hourglass : pystr := [9203%N].

(** [mcp_search_api_sync] (appv1.py:65-69). *)
Definition mcp_search_api_sync (env : Env) (query : pystr) : py CallToolResult :=
  Shared._mcp_search_api env query.

(** [is_admin] (appv1.py:72-73): membership in a set of strings.  Looking
    up an unhashable object raises. *)
Definition is_admin (ADMIN_USER_IDS : list pystr) (slack_user_id : pyval)
  : py bool :=
  match slack_user_id with
  | PStr s => Ok (existsb (pystr_eqb s) ADMIN_USER_IDS)
  | PList _ | PDict _ => Raise TypeError
  | _ => Ok false
  end.

Definition MAX_ROWS : nat := 20.

(** The body of the loop [for row in results[:MAX_ROWS]]
    (appv1.py:174-210): the line it appends to [lines]. *)
Definition format_row (row : pyval) : py pystr :=
  field_map <- Shared.row_field_map row ;;
  let fname := fmap_get field_map (PStr (lit "user.first_name")) (PStr []) in
  let lname := fmap_get field_map (PStr (lit "user.last_name")) (PStr []) in
  let email := fmap_get field_map (PStr (lit "user.email")) PNone in
  let username := fmap_get field_map (PStr (lit "user.username")) PNone in
  let uid := fmap_get field_map (PStr (lit "user.id")) PNone in
  if truthy (py_or username (py_or email uid)) then
    t <- py_add fname (PStr (lit " ")) ;;
    t <- py_add t lname ;;
    pretty_name <- py_strip t ;;
    let parts := [] in
    let parts := if truthy username
                 then parts ++ [lit "`" ++ py_str username ++ lit "`"] else parts in
    let parts := if truthy (PStr pretty_name) then parts ++ [pretty_name] else parts in
    let parts := if truthy email
                 then parts ++ [lit "<" ++ py_str email ++ lit ">"] else parts in
    let parts := if truthy uid
                 then parts ++ [lit "_id: `" ++ py_str uid ++ lit "`_"] else parts in
    Ok (bullet ++ lit " " ++ join (lit " " ++ en_dash ++ lit " ") parts)
  else
    let field_parts :=
      map (fun kv => lit "*" ++ py_str (fst kv) ++ lit "*: `"
                     ++ py_str (snd kv) ++ lit "`") field_map in
    Ok (bullet ++ lit " " ++ join (lit "; ") field_parts).

Fixpoint for_rows (rows : list pyval) (lines : list pyval) : py (list pyval) :=
  match rows with
  | [] => Ok lines
  | row :: rest =>
      line <- format_row row ;;
      for_rows rest (lines ++ [PStr line])
  end.

(** The results section of [_format_search_api_results]
    (appv1.py:165-216), from [if not results:] to the end, for the
    [lines] collected so far. *)
Definition results_section (results : pyval) (lines : list pyval) : py pystr :=
  if negb (truthy results) then
    str_join nl (lines ++ [PStr (lit "_No results found._")])
  else
    n <- py_len results ;;
    let lines :=
      lines ++ [PStr (lit "*Results* (showing up to " ++ str_of_nat (Nat.min n 20)
                      ++ lit "):")] in
    shown <- slice_to results MAX_ROWS ;;
    rows <- py_iter shown ;;
    lines <- for_rows rows lines ;;
    let lines :=
      if (MAX_ROWS <? n)%nat
      then lines ++ [PStr (nl ++ lit "_" ++ ellipsis ++ lit " plus "
                           ++ str_of_nat (n - MAX_ROWS) ++ lit " more results_")]
      else lines in
    str_join nl lines.

(** [_format_search_api_results] (appv1.py:121-216). *)
Definition _format_search_api_results (inner : dict) : py pystr :=
  let explanation := dict_get inner (lit "explanation") PNone in
  let rationale := dict_get inner (lit "rationale") PNone in
  let query_result :=
    py_or (dict_get inner (lit "query_result") (PDict [])) (PDict []) in
  md <- get query_result (lit "metadata") (PDict []) ;;
  let metadata := py_or md (PDict []) in
  rs <- get query_result (lit "results") (PList []) ;;
  let results := py_or rs (PList []) in
  let lines : list pyval := [] in
  let lines :=
    if truthy explanation
    then lines ++ [PStr (lit "*Explanation:*" ++ nl ++ py_str explanation ++ nl)]
    else lines in
  let lines :=
    if truthy rationale
    then lines ++ [PStr (lit "*Why this query:* " ++ py_str rationale ++ nl)]
    else lines in
  qt <- get metadata (lit "queryTime") PNone ;;
  let lines :=
    if negb (is_None qt)
    then lines ++ [PStr (lit "_Query time_: `" ++ py_str qt ++ lit "`" ++ nl)]
    else lines in
  results_section results lines.

(** [format_search_api_slack_message] (appv1.py:219-239). *)
Definition format_search_api_slack_message
    (user_query : pystr) (result_obj : CallToolResult) : py pystr :=
  inner <- Shared._extract_inner_json_from_search_api_result result_obj ;;
  match inner with
  | None =>
      raw <- try_except (model_dump_json result_obj)
                        (fun _ => Ok (str_result result_obj)) ;;
      Ok (lit "*Query:* `" ++ user_query ++ lit "`" ++ nl
          ++ lit "Could not parse structured search_api result, showing raw data:"
          ++ nl
          ++ lit "```json" ++ nl ++ firstn 2700 raw ++ nl ++ lit "```")
  | Some inner =>
      formatted <- _format_search_api_results inner ;;
      Ok (lit "*Query:* `" ++ user_query ++ lit "`" ++ nl ++ nl ++ formatted)
  end.

(** [handle_jc_command] (appv1.py:244-279): the messages passed to
    [respond], in order.  An exception that leaves the handler does so
    before the first [respond]. *)
Definition handle_jc_command (env : Env) (ADMIN_USER_IDS : list pystr)
    (body : dict) : py (list pystr) :=
  let user_id := dict_get body (lit "user_id") PNone in
  admin <- (if truthy user_id then is_admin ADMIN_USER_IDS user_id
            else Ok false) ;;
  if negb (truthy user_id) || negb admin then
    Ok [lit ":no_entry: You are not authorized to use this JumpCloud search bot."]
  else
    text <- py_strip (py_or (dict_get body (lit "text") PNone) (PStr [])) ;;
    if negb (truthy (PStr text)) then
      Ok [lit "Please provide a question, e.g. `/jc count users by group`."]
    else
      let working :=
        hourglass ++ lit " Working on your JumpCloud query: `" ++ text
        ++ lit "` " ++ ellipsis in
      let final :=
        try_except
          (result_obj <- mcp_search_api_sync env text ;;
           msg <- format_search_api_slack_message text result_obj ;;
           Ok [msg])
          (fun e =>
             Ok [lit ":warning: Error while calling JumpCloud MCP `search_api`: `"
                 ++ str_exn e ++ lit "`"]) in
      sent <- final ;;
      Ok (working :: sent).

End AppV1.
End AppV1.

(** ** The Slack front end with the raw dump (src/bot/app.py) *)

Module App.
Section App.
Context `{PyLib} `{McpClient}.

(** [mcp_search_api_sync] (app.py:65-81). *)
Definition mcp_search_api_sync (env : Env) (query : pystr) : py pystr :=
  result <- Shared._mcp_search_api env query ;;
  let structured := getattr (structuredContent result) in
  if negb (is_None structured) then json_dumps structured
  else try_except (model_dump_json result) (fun _ => Ok (str_result result)).

Definition is_admin (ADMIN_USER_IDS : list pystr) (slack_user_id : pyval)
  : py bool :=
  match slack_user_id with
  | PStr s => Ok (existsb (pystr_eqb s) ADMIN_USER_IDS)
  | PList _ | PDict _ => Raise TypeError
  | _ => Ok false
  end.

(** The truncation marker, ["\n... (truncated)"] in the source. *)
Definition truncation_marker : pystr := nl ++ lit "... (truncated)".

(** The size bounder of the handler (app.py:118-121): the value of
    [truncated], for the local constant [MAX_LEN]. *)
Definition truncated (raw_json : pystr) (MAX_LEN : nat) : pystr :=
  if (MAX_LEN <? length raw_json)%nat
  then firstn MAX_LEN raw_json ++ truncation_marker
  else raw_json.

Definition MAX_LEN : nat := 2800.

(** [handle_jc_command] (app.py:90-130): the messages passed to
    [respond], in order. *)
Definition handle_jc_command (env : Env) (ADMIN_USER_IDS : list pystr)
    (body : dict) : py (list pystr) :=
  let user_id := dict_get body (lit "user_id") PNone in
  admin <- (if truthy user_id then is_admin ADMIN_USER_IDS user_id
            else Ok false) ;;
  if negb (truthy user_id) || negb admin then
    Ok [lit ":no_entry: You are not authorized to use this JumpCloud search bot."]
  else
    text <- py_strip (py_or (dict_get body (lit "text") PNone) (PStr [])) ;;
    if negb (truthy (PStr text)) then
      Ok [lit "Please provide a question, e.g. `/jc count users by group`."]
    else
      try_except
        (raw_json <- mcp_search_api_sync env text ;;
         Ok [lit "*Query:* `" ++ text ++ lit "`" ++ nl
             ++ lit "*search_api result:*" ++ nl
             ++ lit "```json" ++ nl ++ truncated raw_json MAX_LEN ++ nl
             ++ lit "```"])
        (fun e =>
           Ok [lit ":warning: Error while calling JumpCloud MCP `search_api`: `"
               ++ str_exn e ++ lit "`"]).

End App.
End App.


(** * Vocabulary of the properties *)

Definition is_dict (v : pyval) : bool :=
  match v with PDict _ => true | _ => false end.

Definition is_str (v : pyval) : bool :=
  match v with PStr _ => true | _ => false end.

(** [[x]] when [b] holds, nothing otherwise. *)
Definition when {A : Type} (b : bool) (x : A) : list A :=
  if b then [x] else [].


Section Vocabulary.
Context `{PyLib}.

(** An item yields the object [d]: it carries a [text] string that
    [json.loads] parses to the mapping [d]. *)
Definition yields_object (item : ContentItem) (d : dict) : Prop :=
  exists s, text item = Some (PStr s) /\ json_loads s = Ok (PDict d).

(** An item yields no object: its text is absent, is not a string, does
    not parse, or parses to something that is not a mapping. *)
Definition yields_nothing (item : ContentItem) : Prop :=
  forall d, ~ yields_object item d.

(** The content can be scanned: it is absent, false, a list of blocks,
    or a plain value that [for] can iterate (a string, a list, a
    mapping). *)
Definition scannable (c : option content_value) : bool :=
  match c with
  | None => true
  | Some (Items _) => true
  | Some (Other v) =>
      negb (truthy v)
      || match v with PStr _ | PList _ | PDict _ => true | _ => false end
  end.

(** The payload has a mapping under [query_result] whose [results] is the
    list [rs] and whose [metadata] is absent, empty or a mapping. *)
Definition payload_results (inner : dict) (rs : list pyval) : Prop :=
  exists qr,
    dict_lookup (lit "query_result") inner = Some (PDict qr)
    /\ dict_lookup (lit "results") qr = Some (PList rs)
    /\ match dict_lookup (lit "metadata") qr with
       | Some md => truthy md = false \/ is_dict md = true
       | None => True
       end.

(** The explanation is absent, empty or a string. *)
Definition explanation_is_text (inner : dict) : Prop :=
  match dict_lookup (lit "explanation") inner with
  | Some v => truthy v = false \/ is_str v = true
  | None => True
  end.

(** The explanation, the rationale and the query time of a payload. *)
Definition explanation_of (inner : dict) : pyval :=
  dict_get inner (lit "explanation") PNone.

Definition rationale_of (inner : dict) : pyval :=
  dict_get inner (lit "rationale") PNone.

Definition query_time_of (inner : dict) : pyval :=
  match dict_lookup (lit "query_result") inner with
  | Some (PDict qr) =>
      match dict_lookup (lit "metadata") qr with
      | Some (PDict m) => dict_get m (lit "queryTime") PNone
      | _ => PNone
      end
  | _ => PNone
  end.

Definition text_of (v : pyval) : pystr :=
  match v with PStr s => s | _ => [] end.

(** The lines before the results section. *)
Definition cli_preamble (inner : dict) : list pystr :=
  (if truthy (explanation_of inner)
   then [lit "Explanation:"; text_of (explanation_of inner); []] else [])
  ++ (if truthy (rationale_of inner)
      then [lit "Why this query: " ++ py_str (rationale_of inner); []] else [])
  ++ (if is_None (query_time_of inner) then []
      else [lit "Query time: " ++ py_str (query_time_of inner); []]).

Definition slack_preamble (inner : dict) : list pystr :=
  (if truthy (explanation_of inner)
   then [lit "*Explanation:*" ++ nl ++ py_str (explanation_of inner) ++ nl]
   else [])
  ++ (if truthy (rationale_of inner)
      then [lit "*Why this query:* " ++ py_str (rationale_of inner) ++ nl]
      else [])
  ++ (if is_None (query_time_of inner) then []
      else [lit "_Query time_: `" ++ py_str (query_time_of inner) ++ lit "`"
            ++ nl]).

(** The lines of the results section. *)
Definition cli_header (shown : nat) : pystr :=
  lit "Results (showing up to " ++ str_of_nat shown ++ lit "):".

Definition cli_more_note (omitted : nat) : pystr :=
  lit "... plus " ++ str_of_nat omitted ++ lit " more".

Definition slack_header (shown : nat) : pystr :=
  lit "*Results* (showing up to " ++ str_of_nat shown ++ lit "):".

Definition slack_more_note (omitted : nat) : pystr :=
  nl ++ lit "_" ++ AppV1.ellipsis ++ lit " plus " ++ str_of_nat omitted
  ++ lit " more results_".

(** What follows the lines of explanation, rationale and query time, for
    [n] result rows rendered as [row_lines]. *)
Definition results_lines (header more_note : nat -> pystr) (no_results : pystr)
    (n : nat) (row_lines : list pystr) : list pystr :=
  match n with
  | O => [no_results]
  | _ => header (Nat.min n 20) :: row_lines
         ++ when (20 <? n)%nat (more_note (n - 20))
  end.

(** [row_lines] are the lines that [format_row] makes of the first 20
    rows of [rs], in their order. *)
Definition rows_rendered (format_row : pyval -> py pystr)
    (rs : list pyval) (row_lines : list pystr) : Prop :=
  Forall2 (fun row line => format_row row = Ok line) (firstn 20 rs) row_lines.

(** The five values that the identity line is made of. *)
Definition first_name_of (fm : fmap) : pyval :=
  fmap_get fm (PStr (lit "user.first_name")) (PStr []).
Definition last_name_of (fm : fmap) : pyval :=
  fmap_get fm (PStr (lit "user.last_name")) (PStr []).
Definition email_of (fm : fmap) : pyval :=
  fmap_get fm (PStr (lit "user.email")) PNone.
Definition username_of (fm : fmap) : pyval :=
  fmap_get fm (PStr (lit "user.username")) PNone.
Definition uid_of (fm : fmap) : pyval :=
  fmap_get fm (PStr (lit "user.id")) PNone.




(** The generic line of the command-line front end. *)
Definition cli_generic_line (fm : fmap) : pystr :=
  lit " - " ++
  join (lit "; ")
    (map (fun kv => py_str (fst kv) ++ lit "=" ++ py_str (snd kv)) fm).

Definition slack_generic_line (fm : fmap) : pystr :=
  AppV1.bullet ++ lit " " ++
  join (lit "; ")
    (map (fun kv => lit "*" ++ py_str (fst kv) ++ lit "*: `"
                    ++ py_str (snd kv) ++ lit "`") fm).

End Vocabulary.



(** ** Entries of a row's [fields] list *)

(** The name and the value of an entry, as [f.get] reads them. *)
Definition entry_name (e : pyval) : pyval :=
  match e with
  | PDict d => dict_get d (lit "field") PNone
  | _ => PNone
  end.

Definition entry_value (e : pyval) : pyval :=
  match e with
  | PDict d => dict_get d (lit "value") PNone
  | _ => PNone
  end.

(** The entry has a name that the reduction keeps. *)
Definition named (e : pyval) : bool := truthy (entry_name e).

(** Keys without a fractional part or structure: [None], a [bool], an
    [int] or a [str]. *)
Definition plain_key (v : pyval) : bool :=
  match v with
  | PNone | PBool _ | PInt _ | PStr _ => true
  | _ => false
  end.

(** The representative of a plain key among the keys equal to it: a
    [bool] stands for its number. *)
Definition key_class (v : pyval) : pyval :=
  match v with
  | PBool b => PInt (if b then 1 else 0)
  | _ => v
  end.

(** An entry as the data model has it: a mapping whose name, if any,
    is a plain key. *)
Definition well_formed_entry (e : pyval) : Prop :=
  is_dict e = true /\ plain_key (entry_name e) = true.

(** The value of the last named entry of [es] whose name equals [k],
    [acc] if there is none. *)
Fixpoint last_value (k : pyval) (es : list pyval) (acc : pyval) : pyval :=
  match es with
  | [] => acc
  | e :: es' =>
      last_value k es'
        (if named e && key_eq (entry_name e) k then entry_value e else acc)
  end.

(** ** The session and the Slack command *)

(** The request headers built from the API key. *)
Definition auth_headers `{PyLib} (env : Env) : list (pystr * pystr) :=
  [(lit "Authorization",
    lit "Bearer " ++ py_str (match JC_API_KEY env with
                             | Some k => PStr k
                             | None => PNone
                             end))].

(** The connection opens, the handshake completes and the tool call
    returns the envelope [r]. *)
Definition session_returns `{PyLib} `{McpClient}
    (env : Env) (query : pystr) (r : CallToolResult) : Prop :=
  streamablehttp_client (JC_MCP_URL env) (auth_headers env) = Ok tt
  /\ initialize = Ok tt
  /\ call_tool (lit "search_api") [(lit "query", PStr query)] = Ok r.

(** The command comes from the administrator [user] and its text,
    trimmed, is the non-empty [text]. *)
Definition command_of (admins : list pystr) (body : dict)
    (user text : pystr) : Prop :=
  dict_lookup (lit "user_id") body = Some (PStr user)
  /\ user <> [] /\ In user admins
  /\ py_strip (py_or (dict_get body (lit "text") PNone) (PStr [])) = Ok text
  /\ text <> [].

(** The messages of the Slack front ends around their variable parts. *)
Definition working_message (text : pystr) : pystr :=
  AppV1.hourglass ++ lit " Working on your JumpCloud query: `" ++ text
  ++ lit "` " ++ AppV1.ellipsis.

Definition slack_fallback_message (user_query dump : pystr) : pystr :=
  lit "*Query:* `" ++ user_query ++ lit "`" ++ nl
  ++ lit "Could not parse structured search_api result, showing raw data:"
  ++ nl ++ lit "```json" ++ nl ++ dump ++ nl ++ lit "```".

Definition slack_formatted_message (user_query formatted : pystr) : pystr :=
  lit "*Query:* `" ++ user_query ++ lit "`" ++ nl ++ nl ++ formatted.

Definition app_message (text dump : pystr) : pystr :=
  lit "*Query:* `" ++ text ++ lit "`" ++ nl
  ++ lit "*search_api result:*" ++ nl
  ++ lit "```json" ++ nl ++ dump ++ nl ++ lit "```".

(** The raw dump of an envelope: [model_dump_json], or [str] when that
    raises. *)
Definition raw_dump `{PyLib} (r : CallToolResult) : pystr :=
  match model_dump_json r with
  | Ok raw => raw
  | Raise _ => str_result r
  end.

(** ** Readings of the specification that the code does not follow *)

(** The extractor returns normally on every envelope, however
    malformed. *)
Definition extract_total_on_every_envelope : Prop :=
  forall (L : PyLib) (result : CallToolResult),
    Shared._extract_inner_json_from_search_api_result result = Ok None
    \/ exists d,
         Shared._extract_inner_json_from_search_api_result result
         = Ok (Some d).


(** The invoker signals an error when the envelope that the tool call
    returned carries [isError = true]. *)
Definition invoke_raises_on_isError : Prop :=
  forall (L : PyLib) (C : McpClient) (env : Env) (query : pystr)
         (r : CallToolResult),
    session_returns env query r ->
    isError r = true ->
    exists e, Shared._mcp_search_api env query = Raise e.

(** Every message that the chat front end delivers is within the budget
    of 2800 characters plus the truncation marker. *)
Definition slack_messages_within_budget : Prop :=
  forall (L : PyLib) (C : McpClient) (env : Env) (admins : list pystr)
         (body : dict) (sent : list pystr),
    AppV1.handle_jc_command env admins body = Ok sent ->
    Forall (fun msg => length msg <= 2800 + length App.truncation_marker) sent.

(** ** Sample inputs *)

(** A [json.loads] that knows the texts of a table and rejects the rest. *)
Fixpoint table_loads (table : list (pystr * pyval)) (s : pystr) : py pyval :=
  match table with
  | [] => Raise JSONDecodeError
  | (t, v) :: table' => if pystr_eqb t s then Ok v else table_loads table' s
  end.

(** The double quote character. *)
Definition dq : pystr := [34%N].

(** The JSON text of an object with the one key [explanation], and its
    value. *)
Definition sample_text : pystr :=
  lit "{" ++ dq ++ lit "explanation" ++ dq ++ lit ": " ++ dq ++ lit "x" ++ dq
  ++ lit "}".

Definition sample_object : dict := [(lit "explanation", PStr (lit "x"))].

(** The JSON text of the round trip of the specification, an object with
    an explanation and an empty result list, and its value. *)
Definition round_trip_text : pystr :=
  lit "{" ++ dq ++ lit "explanation" ++ dq ++ lit ":" ++ dq ++ lit "x" ++ dq
  ++ lit "," ++ dq ++ lit "query_result" ++ dq ++ lit ":{" ++ dq
  ++ lit "results" ++ dq ++ lit ":[]}}".

Definition round_trip_object : dict :=
  [(lit "explanation", PStr (lit "x"));
   (lit "query_result", PDict [(lit "results", PList [])])].

Definition sample_lib : PyLib := {|
  json_loads := table_loads [(sample_text, PDict sample_object);
                             (round_trip_text, PDict round_trip_object);
                             (lit "[1]", PList [PInt 1]);
                             (lit "7", PInt 7)];
  json_dumps := fun _ => Ok (lit "{}");
  py_repr := fun _ => lit "<repr>";
  str_exn := fun _ => lit "error";
  model_dump_json := fun _ => Raise (OtherException (lit "no model_dump_json"));
  str_result := fun _ => lit "CallToolResult()"
|}.

(** A client whose calls all succeed and whose tool returns [r]. *)
Definition client_returning (r : CallToolResult) : McpClient := {|
  streamablehttp_client := fun _ _ => Ok tt;
  initialize := Ok tt;
  call_tool := fun _ _ => Ok r
|}.

Definition sample_env : Env :=
  {| JC_MCP_URL := lit "https://mcp.jumpcloud.com/v1";
     JC_API_KEY := Some (lit "jca_key") |}.

(** An entry [{"field": name, "value": value}] of a row. *)
Definition field_entry (name value : pyval) : pyval :=
  PDict [(lit "field", name); (lit "value", value)].

(** A row [{"fields": entries, "itemnum": 1}]. *)
Definition row_of (entries : list pyval) : pyval :=
  PDict [(lit "fields", PList entries); (lit "itemnum", PInt 1)].

(** A payload [{"query_result": {"results": rows}}]. *)
Definition payload_of (rows : list pyval) : dict :=
  [(lit "query_result", PDict [(lit "results", PList rows)])].

(** A user row and a device row. *)
Definition user_row : pyval :=
  row_of [field_entry (PStr (lit "user.username")) (PStr (lit "ak"));
          field_entry (PStr (lit "user.email")) (PStr (lit "a@x.com"))].

Definition device_row : pyval :=
  row_of [field_entry (PStr (lit "device.name")) (PStr (lit "laptop1"))].


(** A row with an email, and a number as first name. *)
Definition numeric_name_row : pyval :=
  row_of [field_entry (PStr (lit "user.email")) (PStr (lit "a@x.com"));
          field_entry (PStr (lit "user.first_name")) (PInt 7)].

(** An envelope that reports an error of the tool. *)
Definition error_envelope : CallToolResult :=
  {| structuredContent := None;
     content := Some (Items [ {| text := Some (PStr (lit "tool failed")) |} ]);
     isError := true |}.

(** An envelope with an explanation of 3000 characters. *)
Definition long_envelope : CallToolResult :=
  {| structuredContent :=
       Some (PDict [(lit "explanation", PStr (repeat 97%N 3000))]);
     content := None;
     isError := false |}.

(** A Slack command of user [U1] with the text [users]. *)
Definition sample_body : dict :=
  [(lit "user_id", PStr (lit "U1")); (lit "text", PStr (lit "users"))].

(** * Vocabulary of the further properties *)

(** A string of white space only. *)
Definition all_space (s : pystr) : Prop :=
  Forall (fun c => isspace c = true) s.

(** A string that [strip] leaves as it is at both ends. *)
Definition trimmed (s : pystr) : Prop :=
  lstrip s = s /\ rstrip s = s.

(** A user id as it can stand in [ADMIN_USER_IDS]: not empty, without
    white space around it and without a comma. *)
Definition user_id_ok (uid : pystr) : Prop :=
  uid <> [] /\ trimmed uid /\ ~ In Config.comma uid.

(** An id written with white space around it. *)
Definition padded (item : pystr * pystr * pystr) : pystr :=
  let '(l, uid, r) := item in l ++ uid ++ r.

Definition padded_ok (item : pystr * pystr * pystr) : Prop :=
  let '(l, uid, r) := item in all_space l /\ user_id_ok uid /\ all_space r.

Definition id_of (item : pystr * pystr * pystr) : pystr :=
  let '(_, uid, _) := item in uid.

(** The variable [ADMIN_USER_IDS] is unset, or holds nothing but white
    space and commas. *)
Definition blank_allowlist (value : option pystr) : Prop :=
  match value with
  | None => True
  | Some s => Forall (fun c => isspace c = true \/ c = Config.comma) s
  end.

(** The fixed answers of the Slack handlers. *)
Definition no_entry_message : pystr :=
  lit ":no_entry: You are not authorized to use this JumpCloud search bot.".

Definition usage_message : pystr :=
  lit "Please provide a question, e.g. `/jc count users by group`.".

Definition warning_message `{PyLib} (e : exn) : pystr :=
  lit ":warning: Error while calling JumpCloud MCP `search_api`: `"
  ++ str_exn e ++ lit "`".

(** A value of a Slack command body: absent, or a string. *)
Definition slack_value (v : option pyval) : Prop :=
  match v with
  | None => True
  | Some w => is_str w = true
  end.

(** The sender of the command is not on the allowlist: the body has no
    [user_id], or one that is not among [admins]. *)
Definition not_admin (admins : list pystr) (body : dict) : Prop :=
  dict_lookup (lit "user_id") body = None
  \/ exists u, dict_lookup (lit "user_id") body = Some (PStr u)
               /\ ~ In u admins.

(** The sender is the administrator [user] and the command has no text
    but white space. *)
Definition blank_command (admins : list pystr) (body : dict) (user : pystr)
  : Prop :=
  dict_lookup (lit "user_id") body = Some (PStr user)
  /\ user <> [] /\ In user admins
  /\ (dict_lookup (lit "text") body = None
      \/ exists t, dict_lookup (lit "text") body = Some (PStr t)
                   /\ all_space t).

(** The payload has no result rows: [query_result] is absent or empty,
    or it is a mapping (with [metadata] absent, empty or a mapping)
    whose [results] is absent or empty. *)
Definition without_results (inner : dict) : Prop :=
  match dict_lookup (lit "query_result") inner with
  | None => True
  | Some q =>
      truthy q = false
      \/ exists qr,
           q = PDict qr
           /\ match dict_lookup (lit "metadata") qr with
              | Some md => truthy md = false \/ is_dict md = true
              | None => True
              end
           /\ match dict_lookup (lit "results") qr with
              | Some v => truthy v = false
              | None => True
              end
  end.


(** A payload with the rows [rs] under [query_result.results], next to
    any other keys. *)
Definition with_results (others query_others : dict) (rs : list pyval) : dict :=
  (lit "query_result", PDict ((lit "results", PList rs) :: query_others))
  :: others.

(** A row as the data model has it: a mapping whose [fields] is absent,
    empty, or a list of well-formed entries. *)
Definition well_formed_row (row : pyval) : Prop :=
  exists rd,
    row = PDict rd
    /\ match dict_lookup (lit "fields") rd with
       | None => True
       | Some v =>
           truthy v = false
           \/ exists es, v = PList es /\ Forall well_formed_entry es
       end.

(** The row qualifies for the identity line. *)
Definition qualifies (fm : fmap) : bool :=
  truthy (username_of fm) || truthy (email_of fm) || truthy (uid_of fm).








(** The text of the command line for an envelope without a payload. *)
Definition cli_fallback_message (user_query dump : pystr) : pystr :=
  lit "Query: " ++ user_query ++ nl ++ nl
  ++ lit "Raw search_api result:" ++ nl ++ dump.





(** ** Further sample inputs *)

(** A [repr] that puts single quotes around a string. *)
Definition sample_repr : ReprLib :=
  {| repr_str := fun s => lit "'" ++ s ++ lit "'" |}.

(** The variables of a deployment whose allowlist holds commas and
    blanks only. *)
Definition blank_allowlist_env : Config.SlackEnv :=
  {| Config.SLACK_BOT_TOKEN := Some (lit "xoxb-1");
     Config.SLACK_SIGNING_SECRET := Some (lit "secret");
     Config.JC_API_KEY := Some (lit "jca_key");
     Config.ADMIN_USER_IDS_var := Some (lit " , ,") |}.

(** An envelope whose payload has one row with a number as first name. *)
Definition numeric_name_envelope : CallToolResult :=
  {| structuredContent := Some (PDict (payload_of [numeric_name_row]));
     content := None;
     isError := false |}.

(** A client that cannot reach the remote end. *)
Definition unreachable_client : McpClient := {|
  streamablehttp_client := fun _ _ => Raise (OtherException (lit "connect"));
  initialize := Ok tt;
  call_tool := fun _ _ => Raise (OtherException (lit "no session"))
|}.

(** A console that encodes its output as UTF-8: every character but the
    surrogates. *)
Definition utf8_console : Console :=
  {| encodable := fun c => negb ((55296 <=? c) && (c <=? 57343))%N |}.


(** An envelope whose [content] is the number 5. *)
Definition number_content_envelope : CallToolResult :=
  {| structuredContent := None;
     content := Some (Other (PInt 5));
     isError := false |}.


(** * Properties *)

(** ** Strings and the exception monad *)

Lemma pystr_eqb_eq (a b : pystr) : pystr_eqb a b = true <-> a = b.
Proof.
  unfold pystr_eqb. destruct (list_eq_dec N.eq_dec a b); split;
    congruence.
Qed.

Lemma pystr_eqb_refl (a : pystr) : pystr_eqb a a = true.
Proof. now apply pystr_eqb_eq. Qed.

Lemma all_str_app (a b : list pyval) (a' b' : list pystr) :
  all_str a = Ok a' -> all_str b = Ok b' -> all_str (a ++ b) = Ok (a' ++ b').
Proof.
  revert a'. induction a as [| x a IH]; intros a' Ha Hb; cbn in *.
  - injection Ha as <-. exact Hb.
  - destruct x; try discriminate Ha.
    destruct (all_str a) as [ss |] eqn:E; cbn in Ha; try discriminate Ha.
    injection Ha as <-. now rewrite (IH ss eq_refl Hb).
Qed.

Lemma all_str_map_PStr (l : list pystr) : all_str (map PStr l) = Ok l.
Proof.
  induction l as [| s l IH]; cbn; [reflexivity |]. now rewrite IH.
Qed.

(** ** The result extractor *)

Section ExtractorFacts.
Context `{PyLib}.

Lemma scan_item_total (item : ContentItem) :
  exists o, Shared.scan_item item = Ok o.
Proof.
  unfold Shared.scan_item.
  destruct (getattr (text item)); try (eexists; reflexivity).
  destruct (json_loads s) as [v | e]; cbn; [| eexists; reflexivity].
  destruct v; eexists; reflexivity.
Qed.

Lemma scan_content_total (items : list ContentItem) :
  exists o, Shared.scan_content items = Ok o.
Proof.
  induction items as [| item rest IH]; cbn; [eexists; reflexivity |].
  destruct (scan_item_total item) as [o ->]; cbn.
  destruct o; [eexists; reflexivity | exact IH].
Qed.

Lemma scan_item_hit (item : ContentItem) (d : dict) :
  yields_object item d -> Shared.scan_item item = Ok (Some d).
Proof.
  intros (s & Ht & Hj). unfold Shared.scan_item.
  rewrite Ht; cbn. now rewrite Hj.
Qed.

Lemma scan_item_skip (item : ContentItem) :
  yields_nothing item -> Shared.scan_item item = Ok None.
Proof.
  intros Hn. unfold Shared.scan_item.
  destruct (text item) as [v |] eqn:Ht; cbn; [| reflexivity].
  destruct v; try reflexivity.
  destruct (json_loads s) as [v | e] eqn:Hj; cbn; [| reflexivity].
  destruct v; try reflexivity.
  exfalso. apply (Hn d). exists s. auto.
Qed.

Lemma scan_content_first (before after : list ContentItem)
    (item : ContentItem) (d : dict) :
  Forall yields_nothing before ->
  yields_object item d ->
  Shared.scan_content (before ++ item :: after) = Ok (Some d).
Proof.
  intros Hb Hy. induction Hb as [| x before Hx _ IH]; cbn.
  - now rewrite (scan_item_hit _ _ Hy).
  - rewrite (scan_item_skip _ Hx). exact IH.
Qed.

Lemma scan_plain_values (vs : list pyval) :
  Shared.scan_content (map (fun _ => {| text := None |}) vs) = Ok None.
Proof. induction vs as [| v vs IH]; [reflexivity | exact IH]. Qed.

(** C1. For an envelope without a mapping under [structuredContent]
    whose [content] holds an item that yields an object, preceded only by
    items that yield none (text absent, not a string, unparsable, or
    parsed to a non-mapping), the extractor returns that first object.
    The items after it are arbitrary: the result does not depend on
    them. *)
Theorem extract_first_object_of_content
    (result : CallToolResult) (before after : list ContentItem)
    (item : ContentItem) (d : dict) :
  is_dict (getattr (structuredContent result)) = false ->
  content result = Some (Items (before ++ item :: after)) ->
  Forall yields_nothing before ->
  yields_object item d ->
  Shared._extract_inner_json_from_search_api_result result = Ok (Some d).
Proof.
  intros Hs Hc Hb Hy.
  unfold Shared._extract_inner_json_from_search_api_result.
  rewrite Hc.
  assert (Hscan := scan_content_first _ after _ _ Hb Hy).
  assert (Htrue : content_truthy (Items (before ++ item :: after)) = true).
  { cbn. destruct (before ++ item :: after) eqn:E;
      [destruct before; discriminate E | reflexivity]. }
  rewrite Htrue. cbn [negb content_iter bind].
  destruct (getattr (structuredContent result)); try discriminate Hs;
    exact Hscan.
Qed.

Lemma extract_of_content (result : CallToolResult) :
  is_dict (getattr (structuredContent result)) = false ->
  Shared._extract_inner_json_from_search_api_result result
  = match content result with
    | Some (Items items) => Shared.scan_content items
    | Some (Other o) => if truthy o then _ <- py_iter o ;; Ok None else Ok None
    | None => Ok None
    end.
Proof.
  intros Hs. unfold Shared._extract_inner_json_from_search_api_result.
  destruct (getattr (structuredContent result)); try discriminate Hs;
    (destruct (content result) as [[[| i rest] | o] |]; try reflexivity;
     cbn [content_truthy content_iter];
     destruct (truthy o); cbn [negb]; try reflexivity;
     destruct (py_iter o) as [vs |]; cbn [bind];
     [apply scan_plain_values | reflexivity]).
Qed.

(** C2. A mapping under [structuredContent] is returned as it is,
    whatever [content] holds; when [structuredContent] is present but is
    no mapping, the extractor does what it does when the attribute is
    absent, that is, the scan of [content]. *)
Theorem extract_structured_content_first :
  (forall (d : dict) (c : option content_value) (e : bool),
      Shared._extract_inner_json_from_search_api_result
        {| structuredContent := Some (PDict d); content := c; isError := e |}
      = Ok (Some d))
  /\
  (forall (v : pyval) (c : option content_value) (e : bool),
      is_dict v = false ->
      Shared._extract_inner_json_from_search_api_result
        {| structuredContent := Some v; content := c; isError := e |}
      = Shared._extract_inner_json_from_search_api_result
          {| structuredContent := None; content := c; isError := e |}
      /\ Shared._extract_inner_json_from_search_api_result
           {| structuredContent := Some v; content := c; isError := e |}
         = match c with
           | Some (Items items) => Shared.scan_content items
           | Some (Other o) =>
               if truthy o then _ <- py_iter o ;; Ok None else Ok None
           | None => Ok None
           end).
Proof.
  split.
  - reflexivity.
  - intros v c e Hv. split.
    + unfold Shared._extract_inner_json_from_search_api_result; cbn.
      destruct v; try discriminate Hv; reflexivity.
    + exact (extract_of_content
               {| structuredContent := Some v; content := c; isError := e |}
               Hv).
Qed.

(** What the extractor returns or raises, by the shape of the
    envelope. *)
Lemma extract_outcome (result : CallToolResult) :
  (is_dict (getattr (structuredContent result)) = true
   \/ scannable (content result) = true ->
   exists o, Shared._extract_inner_json_from_search_api_result result = Ok o)
  /\ (is_dict (getattr (structuredContent result)) = false ->
      scannable (content result) = false ->
      Shared._extract_inner_json_from_search_api_result result
      = Raise TypeError).
Proof.
  destruct (is_dict (getattr (structuredContent result))) eqn:Hs.
  - split; [intros _ | discriminate].
    unfold Shared._extract_inner_json_from_search_api_result.
    destruct (getattr (structuredContent result)); try discriminate Hs.
    eexists; reflexivity.
  - rewrite (extract_of_content result Hs).
    destruct (content result) as [[items | o] |]; cbn [scannable].
    + split; [intros _; apply scan_content_total | discriminate].
    + destruct (truthy o) eqn:Ht; cbn [negb orb].
      * split.
        -- intros [Hd | Hi]; [discriminate Hd |].
           destruct o; try discriminate Hi; eexists; reflexivity.
        -- intros _ Hi. destruct o; try discriminate Hi; reflexivity.
      * split; [intros _; eexists; reflexivity | discriminate].
    + split; [intros _; eexists; reflexivity | discriminate].
Qed.

(** C8, as the code has it. The extractor returns normally, with a
    mapping or with [None], on every envelope whose [structuredContent]
    is a mapping or whose [content] can be scanned (absent, false, a
    list of any blocks, a string, a mapping), whatever the blocks and
    [json.loads] do.  On any other envelope, one whose [content] is a
    true value that cannot be iterated, it raises [TypeError]; it raises
    nothing else. *)
Theorem extract_raises_only_on_content_without_items
    (result : CallToolResult) :
  (is_dict (getattr (structuredContent result)) = true
   \/ scannable (content result) = true ->
   Shared._extract_inner_json_from_search_api_result result = Ok None
   \/ exists d, Shared._extract_inner_json_from_search_api_result result
                = Ok (Some d))
  /\ (forall e,
      Shared._extract_inner_json_from_search_api_result result = Raise e
      <-> e = TypeError
          /\ is_dict (getattr (structuredContent result)) = false
          /\ scannable (content result) = false).
Proof.
  destruct (extract_outcome result) as [Hok Hraise].
  split.
  - intros Hshape. destruct (Hok Hshape) as [[d |] ->]; eauto.
  - intros e. split.
    + intros He.
      destruct (is_dict (getattr (structuredContent result))) eqn:Hs.
      * destruct (Hok (or_introl eq_refl)) as [o Ho]. congruence.
      * destruct (scannable (content result)) eqn:Hc.
        -- destruct (Hok (or_intror eq_refl)) as [o Ho]. congruence.
        -- rewrite (Hraise eq_refl eq_refl) in He.
           injection He as <-. auto.
    + intros (-> & Hs & Hc). now apply Hraise.
Qed.

End ExtractorFacts.

(** An envelope with a number under [structuredContent] and blocks that
    yield nothing; and the envelope whose [content] is the number 5. *)
Example extract_raises_only_on_content_without_items_witness :
  (@Shared._extract_inner_json_from_search_api_result sample_lib
     {| structuredContent := Some (PInt 3);
        content := Some (Items [ {| text := None |};
                                 {| text := Some (PInt 3) |};
                                 {| text := Some (PStr (lit "not json")) |} ]);
        isError := false |} = Ok None
   \/ exists d,
        @Shared._extract_inner_json_from_search_api_result sample_lib
          {| structuredContent := Some (PInt 3);
             content := Some (Items [ {| text := None |};
                                      {| text := Some (PInt 3) |};
                                      {| text := Some (PStr (lit "not json")) |} ]);
             isError := false |} = Ok (Some d))
  /\ @Shared._extract_inner_json_from_search_api_result sample_lib
       number_content_envelope = Raise TypeError.
Proof.
  split.
  - apply (proj1 (@extract_raises_only_on_content_without_items sample_lib _)).
    right. reflexivity.
  - apply (proj2 (@extract_raises_only_on_content_without_items sample_lib
                    number_content_envelope) TypeError).
    repeat split.
Defined.

(** C8, as stated, fails: on the envelope whose [content] is the number
    5 the loop over [content] raises [TypeError]. *)
Example extract_raises_on_content_that_is_a_number :
  ~ extract_total_on_every_envelope.
Proof.
  intros Hclaim.
  destruct (Hclaim sample_lib number_content_envelope) as [Hn | [d Hd]];
    [discriminate Hn | discriminate Hd].
Qed.

(** An envelope with a list under [structuredContent] and six content
    items: no text, a number as text, text that is no JSON, a JSON list,
    the sample object, a JSON number. *)
Example extract_first_object_of_content_witness :
  @Shared._extract_inner_json_from_search_api_result sample_lib
    {| structuredContent := Some (PList []);
       content := Some (Items [ {| text := None |};
                         {| text := Some (PInt 3) |};
                         {| text := Some (PStr (lit "not json")) |};
                         {| text := Some (PStr (lit "[1]")) |};
                         {| text := Some (PStr sample_text) |};
                         {| text := Some (PStr (lit "7")) |} ]);
       isError := false |}
  = Ok (Some sample_object).
Proof.
  apply (@extract_first_object_of_content sample_lib _
           [ {| text := None |};
             {| text := Some (PInt 3) |};
             {| text := Some (PStr (lit "not json")) |};
             {| text := Some (PStr (lit "[1]")) |} ]
           [ {| text := Some (PStr (lit "7")) |} ]
           {| text := Some (PStr sample_text) |}).
  - reflexivity.
  - reflexivity.
  - repeat constructor; intros d (s & Ht & Hj); cbn in Ht;
      try discriminate Ht; injection Ht as <-; vm_compute in Hj;
      discriminate Hj.
  - exists sample_text. split; reflexivity.
Defined.

(** A wrongly typed [structuredContent] next to a parsable text item. *)
Example extract_structured_content_first_witness :
  @Shared._extract_inner_json_from_search_api_result sample_lib
    {| structuredContent := Some (PStr (lit "oops"));
       content := Some (Items [ {| text := Some (PStr sample_text) |} ]);
       isError := false |}
  = Ok (Some sample_object)
  /\ @Shared._extract_inner_json_from_search_api_result sample_lib
       {| structuredContent := Some (PDict sample_object);
          content := Some (Items [ {| text := Some (PStr (lit "7")) |} ]);
          isError := false |}
     = Ok (Some sample_object).
Proof.
  split.
  - rewrite (proj1 (proj2 (@extract_structured_content_first sample_lib)
                      (PStr (lit "oops")) _ false eq_refl)).
    reflexivity.
  - apply (proj1 (@extract_structured_content_first sample_lib)).
Defined.

(** ** The size bounder *)

(** C5. The bounder returns a text of at most [max_chars] characters as
    it is, and otherwise its first [max_chars] characters followed by
    the truncation marker, so that the result is longer than [max_chars]
    by the length of the marker. *)
Theorem truncated_bounds_text (text : pystr) (max_chars : nat) :
  (length text <= max_chars -> App.truncated text max_chars = text)
  /\ (max_chars < length text ->
      App.truncated text max_chars = firstn max_chars text ++ App.truncation_marker
      /\ length (App.truncated text max_chars)
         = max_chars + length App.truncation_marker).
Proof.
  unfold App.truncated. split; intros Hlen.
  - destruct (Nat.ltb_spec max_chars (length text)); [lia | reflexivity].
  - destruct (Nat.ltb_spec max_chars (length text)); [| lia].
    split; [reflexivity |].
    rewrite length_app, firstn_length_le; lia.
Qed.

(** An input of 11 characters and one of 10 characters, for a budget of
    10. *)
Example truncated_bounds_text_witness :
  App.truncated (lit "hello world") 10
  = lit "hello worl" ++ App.truncation_marker
  /\ length (App.truncated (lit "hello world") 10) = 10 + 16
  /\ App.truncated (lit "0123456789") 10 = lit "0123456789".
Proof.
  split; [| split].
  - apply (proj2 (truncated_bounds_text (lit "hello world") 10)).
    cbn; lia.
  - apply (proj2 (truncated_bounds_text (lit "hello world") 10)).
    cbn; lia.
  - apply (proj1 (truncated_bounds_text (lit "0123456789") 10)).
    cbn; lia.
Defined.

(** ** The tool invoker *)

Section InvokerFacts.
Context `{PyLib} `{McpClient}.

Lemma mcp_search_api_returns (env : Env) (query : pystr) (r : CallToolResult) :
  session_returns env query r ->
  Shared._mcp_search_api env query = Ok r.
Proof.
  intros (Hopen & Hinit & Hcall).
  unfold Shared._mcp_search_api. fold (auth_headers env).
  rewrite Hopen; cbn [bind]. rewrite Hinit; cbn [bind].
  now rewrite Hcall.
Qed.

(** C6, as the code has it. The invoker hands the envelope of the tool
    call to its caller as it is, whatever its [isError] flag says; it
    raises only what opening the connection, the handshake or the call
    itself raises. *)
Theorem invoke_returns_envelope_as_is (env : Env) (query : pystr) :
  (forall r,
      session_returns env query r ->
      Shared._mcp_search_api env query = Ok r
      /\ AppV1.mcp_search_api_sync env query = Ok r
      /\ (JcCli.require_env env = None ->
          JcCli.mcp_search_api_sync env query = JcCli.Done (Ok r)))
  /\ (forall e,
      Shared._mcp_search_api env query = Raise e ->
      streamablehttp_client (JC_MCP_URL env) (auth_headers env) = Raise e
      \/ initialize = Raise e
      \/ call_tool (lit "search_api") [(lit "query", PStr query)] = Raise e).
Proof.
  split.
  - intros r Hsession.
    pose proof (mcp_search_api_returns env query r Hsession) as Hinv.
    split; [exact Hinv | split].
    + exact Hinv.
    + intros Henv. unfold JcCli.mcp_search_api_sync.
      now rewrite Henv, Hinv.
  - intros e. unfold Shared._mcp_search_api. fold (auth_headers env).
    destruct (streamablehttp_client _ _) as [u |]; cbn [bind].
    + destruct initialize as [u' |]; cbn [bind].
      * destruct (call_tool _ _) as [r |]; cbn [bind]; intros He;
          [discriminate He | right; right; exact He].
      * intros He. right; left. congruence.
    + intros He. left. congruence.
Qed.

End InvokerFacts.

(** The tool reports an error in its envelope and the invoker returns the
    envelope. *)
Example invoke_returns_envelope_as_is_witness :
  @Shared._mcp_search_api sample_lib (client_returning error_envelope)
    sample_env (lit "users") = Ok error_envelope
  /\ isError error_envelope = true.
Proof.
  split; [| reflexivity].
  apply (proj1 (@invoke_returns_envelope_as_is sample_lib
                  (client_returning error_envelope) sample_env (lit "users"))).
  repeat split.
Defined.

(** C6, as stated, fails: an envelope with [isError = true] comes back
    from the invoker like any other. *)
Example invoke_does_not_raise_on_isError : ~ invoke_raises_on_isError.
Proof.
  intros Hclaim.
  destruct (Hclaim sample_lib (client_returning error_envelope) sample_env
              (lit "users") error_envelope) as [e He].
  - repeat split.
  - reflexivity.
  - discriminate He.
Qed.

(** ** The result formatter: the results section *)

Section ResultsSectionFacts.
Context `{PyLib}.

Lemma cli_for_rows_rendered (rows lines : list pyval) (row_lines : list pystr) :
  Forall2 (fun row line => JcCli.format_row row = Ok line) rows row_lines ->
  JcCli.for_rows rows lines = Ok (lines ++ map PStr row_lines).
Proof.
  intros Hr. revert lines.
  induction Hr as [| row line rows row_lines Hrow _ IH]; intros lines; cbn.
  - now rewrite app_nil_r.
  - rewrite Hrow; cbn [bind]. rewrite IH, <- app_assoc. reflexivity.
Qed.

Lemma slack_for_rows_rendered (rows lines : list pyval) (row_lines : list pystr) :
  Forall2 (fun row line => AppV1.format_row row = Ok line) rows row_lines ->
  AppV1.for_rows rows lines = Ok (lines ++ map PStr row_lines).
Proof.
  intros Hr. revert lines.
  induction Hr as [| row line rows row_lines Hrow _ IH]; intros lines; cbn.
  - now rewrite app_nil_r.
  - rewrite Hrow; cbn [bind]. rewrite IH, <- app_assoc. reflexivity.
Qed.


Lemma str_join_lines (lines : list pyval) (pre rest : list pystr) :
  all_str lines = Ok pre ->
  str_join nl (lines ++ map PStr rest) = Ok (join nl (pre ++ rest)).
Proof.
  intros Hl. unfold str_join.
  now rewrite (all_str_app _ _ _ _ Hl (all_str_map_PStr rest)).
Qed.

Lemma cli_results_section_rendered
    (rs lines : list pyval) (pre row_lines : list pystr) :
  all_str lines = Ok pre ->
  rows_rendered JcCli.format_row rs row_lines ->
  JcCli.results_section (py_or (PList rs) (PList [])) lines
  = Ok (join nl (pre ++ results_lines cli_header cli_more_note
                          (lit "No results found.") (length rs) row_lines)).
Proof.
  intros Hl Hr. unfold JcCli.results_section.
  destruct rs as [| r rs'].
  - cbn [py_or truthy negb length results_lines].
    now apply (str_join_lines _ _ [_]).
  - cbn [py_or truthy negb py_len bind slice_to py_iter].
    unfold JcCli.MAX_ROWS.
    rewrite (cli_for_rows_rendered _ _ _ Hr); cbn [bind].
    set (n := length (r :: rs')).
    assert (Hn : results_lines cli_header cli_more_note
                   (lit "No results found.") n row_lines
                 = cli_header (Nat.min n 20) :: row_lines
                   ++ when (20 <? n)%nat (cli_more_note (n - 20))).
    { reflexivity. }
    rewrite Hn. unfold when.
    destruct (20 <? n)%nat.
    + pose proof (str_join_lines lines pre
                    (cli_header (Nat.min n 20) :: row_lines
                     ++ [cli_more_note (n - 20)]) Hl) as HJ.
      rewrite map_cons, map_app in HJ.
      rewrite <- !app_assoc. exact HJ.
    + pose proof (str_join_lines lines pre
                    (cli_header (Nat.min n 20) :: row_lines) Hl) as HJ.
      rewrite map_cons in HJ.
      rewrite app_nil_r, <- !app_assoc. exact HJ.
Qed.

Lemma slack_results_section_rendered
    (rs lines : list pyval) (pre row_lines : list pystr) :
  all_str lines = Ok pre ->
  rows_rendered AppV1.format_row rs row_lines ->
  AppV1.results_section (py_or (PList rs) (PList [])) lines
  = Ok (join nl (pre ++ results_lines slack_header slack_more_note
                          (lit "_No results found._") (length rs) row_lines)).
Proof.
  intros Hl Hr. unfold AppV1.results_section.
  destruct rs as [| r rs'].
  - cbn [py_or truthy negb length results_lines].
    now apply (str_join_lines _ _ [_]).
  - cbn [py_or truthy negb py_len bind slice_to py_iter].
    unfold AppV1.MAX_ROWS.
    rewrite (slack_for_rows_rendered _ _ _ Hr); cbn [bind].
    set (n := length (r :: rs')).
    assert (Hn : results_lines slack_header slack_more_note
                   (lit "_No results found._") n row_lines
                 = slack_header (Nat.min n 20) :: row_lines
                   ++ when (20 <? n)%nat (slack_more_note (n - 20))).
    { reflexivity. }
    rewrite Hn. unfold when.
    destruct (20 <? n)%nat.
    + pose proof (str_join_lines lines pre
                    (slack_header (Nat.min n 20) :: row_lines
                     ++ [slack_more_note (n - 20)]) Hl) as HJ.
      rewrite map_cons, map_app in HJ.
      rewrite <- !app_assoc. exact HJ.
    + pose proof (str_join_lines lines pre
                    (slack_header (Nat.min n 20) :: row_lines) Hl) as HJ.
      rewrite map_cons in HJ.
      rewrite app_nil_r, <- !app_assoc. exact HJ.
Qed.

End ResultsSectionFacts.

(** ** The result formatter: the whole text *)

Section FormatterFacts.
Context `{PyLib}.

Lemma payload_results_read (inner : dict) (rs : list pyval) :
  payload_results inner rs ->
  exists qr m,
    py_or (dict_get inner (lit "query_result") (PDict [])) (PDict []) = PDict qr
    /\ py_or (dict_get qr (lit "metadata") (PDict [])) (PDict []) = PDict m
    /\ dict_get qr (lit "results") (PList []) = PList rs
    /\ dict_get m (lit "queryTime") PNone = query_time_of inner.
Proof.
  intros (qr & Hq & Hr & Hm).
  assert (Hqr : py_or (PDict qr) (PDict []) = PDict qr).
  { destruct qr; [discriminate Hr | reflexivity]. }
  exists qr. unfold query_time_of, dict_get. rewrite Hq, Hr.
  destruct (dict_lookup (lit "metadata") qr) as [md |].
  - destruct Hm as [Hm | Hm].
    + exists []. unfold py_or at 2. rewrite Hm.
      repeat split; [exact Hqr |].
      destruct md; try reflexivity. destruct d; [reflexivity | discriminate Hm].
    + destruct md; try discriminate Hm.
      exists d. repeat split; [exact Hqr |]. destruct d; reflexivity.
  - exists []. auto.
Qed.


Lemma slack_format_rendered (inner : dict) (rs : list pyval)
    (row_lines : list pystr) :
  payload_results inner rs ->
  rows_rendered AppV1.format_row rs row_lines ->
  AppV1._format_search_api_results inner
  = Ok (join nl (slack_preamble inner
                 ++ results_lines slack_header slack_more_note
                      (lit "_No results found._") (length rs) row_lines)).
Proof.
  intros Hp Hrows.
  destruct (payload_results_read _ _ Hp) as (qr & m & Hq & Hm & Hr & Hqt).
  unfold AppV1._format_search_api_results. cbv zeta.
  rewrite Hq. cbn [get bind]. rewrite Hm, Hr. cbn [get bind].
  apply slack_results_section_rendered; [| exact Hrows].
  rewrite Hqt. unfold slack_preamble.
  fold (explanation_of inner) (rationale_of inner).
  destruct (truthy (explanation_of inner));
    destruct (truthy (rationale_of inner));
    destruct (is_None (query_time_of inner)); reflexivity.
Qed.


End FormatterFacts.

(** ** The result formatter: one row *)

Section RowFacts.
Context `{PyLib}.

Lemma truthy_py_or (a b : pyval) : truthy (py_or a b) = truthy a || truthy b.
Proof. unfold py_or. destruct (truthy a) eqn:E; [now rewrite E | reflexivity]. Qed.

Lemma format_row_generic (row : pyval) (fm : fmap) :
  Shared.row_field_map row = Ok fm ->
  qualifies fm = false ->
  JcCli.format_row row = Ok (cli_generic_line fm)
  /\ AppV1.format_row row = Ok (slack_generic_line fm).
Proof.
  intros Hfm Hq. unfold JcCli.format_row, AppV1.format_row.
  rewrite Hfm; cbn [bind]. cbv zeta.
  fold (first_name_of fm) (last_name_of fm) (email_of fm)
       (username_of fm) (uid_of fm).
  unfold qualifies in Hq.
  rewrite !truthy_py_or, orb_assoc, Hq. split; reflexivity.
Qed.


End RowFacts.



(** ** The reduction of a row's fields *)

Lemma key_eq_plain (a b : pyval) :
  plain_key a = true -> plain_key b = true ->
  key_eq a b = true <-> key_class a = key_class b.
Proof.
  intros Ha Hb.
  destruct a; try discriminate Ha; destruct b; try discriminate Hb; cbn;
    repeat match goal with b : bool |- _ => destruct b end;
    try (split; [discriminate | intros E; injection E as E; lia]);
    try (split; [discriminate | discriminate]);
    try (split; reflexivity).
  - rewrite Z.eqb_eq. split; intros E; [now subst | injection E as E; lia].
  - rewrite Z.eqb_eq. split; intros E; [now subst | injection E as E; lia].
  - rewrite Z.eqb_eq. split; intros E; [now subst | injection E as E; lia].
  - rewrite Z.eqb_eq. split; intros E; [now subst | injection E as E; lia].
  - rewrite Z.eqb_eq. split; intros E; [now subst | now injection E].
  - rewrite pystr_eqb_eq. split; intros E; [now subst | now injection E].
Qed.

Lemma key_eq_plain_false (a b : pyval) :
  plain_key a = true -> plain_key b = true ->
  key_eq a b = false <-> key_class a <> key_class b.
Proof.
  intros Ha Hb. rewrite <- (key_eq_plain a b Ha Hb).
  destruct (key_eq a b); split; congruence.
Qed.

Lemma plain_key_hashable (k : pyval) : plain_key k = true -> hashable k = true.
Proof. destruct k; intros E; try discriminate E; reflexivity. Qed.

Lemma fmap_set_plain (m : fmap) (k v : pyval) :
  Forall (fun kv => plain_key (fst kv) = true) m ->
  plain_key k = true ->
  Forall (fun kv => plain_key (fst kv) = true) (fmap_set m k v).
Proof.
  intros Hm Hk. induction Hm as [| [k0 v0] m Hk0 Hm IH]; cbn.
  - constructor; [exact Hk | constructor].
  - destruct (key_eq k0 k); constructor; auto.
Qed.

Lemma fmap_set_truthy (m : fmap) (k v : pyval) :
  Forall (fun kv => truthy (fst kv) = true) m ->
  truthy k = true ->
  Forall (fun kv => truthy (fst kv) = true) (fmap_set m k v).
Proof.
  intros Hm Hk. induction Hm as [| [k0 v0] m Hk0 Hm IH]; cbn.
  - constructor; [exact Hk | constructor].
  - destruct (key_eq k0 k); constructor; auto.
Qed.

(** Reading a key after an assignment. *)
Lemma fmap_get_set (m : fmap) (k' v k dflt : pyval) :
  Forall (fun kv => plain_key (fst kv) = true) m ->
  plain_key k' = true -> plain_key k = true ->
  fmap_get (fmap_set m k' v) k dflt
  = if key_eq k' k then v else fmap_get m k dflt.
Proof.
  intros Hm Hk' Hk. induction Hm as [| [k0 v0] m Hk0 Hm IH]; cbn.
  - reflexivity.
  - cbn in Hk0.
    destruct (key_eq k0 k') eqn:E0; cbn.
    + apply (key_eq_plain _ _ Hk0 Hk') in E0.
      destruct (key_eq k0 k) eqn:E1.
      * apply (key_eq_plain _ _ Hk0 Hk) in E1.
        assert (E2 : key_eq k' k = true)
          by (apply (key_eq_plain _ _ Hk' Hk); congruence).
        now rewrite E2.
      * apply (key_eq_plain_false _ _ Hk0 Hk) in E1.
        assert (E2 : key_eq k' k = false)
          by (apply (key_eq_plain_false _ _ Hk' Hk); congruence).
        now rewrite E2.
    + apply (key_eq_plain_false _ _ Hk0 Hk') in E0.
      rewrite IH.
      destruct (key_eq k0 k) eqn:E1; [| reflexivity].
      apply (key_eq_plain _ _ Hk0 Hk) in E1.
      assert (E2 : key_eq k' k = false)
        by (apply (key_eq_plain_false _ _ Hk' Hk); congruence).
      now rewrite E2.
Qed.

Section ReduceFacts.
Context `{PyLib}.

(** One step of the loop on a well-formed entry. *)
Lemma reduce_fields_step (e : pyval) (es : list pyval) (m : fmap) :
  well_formed_entry e ->
  Shared.reduce_fields (e :: es) m
  = Shared.reduce_fields es
      (if named e then fmap_set m (entry_name e) (entry_value e) else m).
Proof.
  intros [Hd Hp]. destruct e; try discriminate Hd.
  cbn [Shared.reduce_fields get bind].
  change (dict_get d (lit "field") PNone) with (entry_name (PDict d)).
  change (dict_get d (lit "value") PNone) with (entry_value (PDict d)).
  unfold named. destruct (truthy (entry_name (PDict d))); [| reflexivity].
  unfold setitem. now rewrite (plain_key_hashable _ Hp).
Qed.


Lemma reduce_fields_reads (es : list pyval) (m : fmap) :
  Forall well_formed_entry es ->
  Forall (fun kv => plain_key (fst kv) = true) m ->
  Forall (fun kv => truthy (fst kv) = true) m ->
  exists fm,
    Shared.reduce_fields es m = Ok fm
    /\ Forall (fun kv => truthy (fst kv) = true) fm
    /\ forall k dflt, plain_key k = true ->
         fmap_get fm k dflt = last_value k es (fmap_get m k dflt).
Proof.
  intros Hes. revert m.
  induction Hes as [| e es He _ IH]; intros m Hm Ht.
  - exists m. repeat split; auto.
  - rewrite (reduce_fields_step _ es m He).
    destruct He as [Hd Hp]. unfold named in *.
    destruct (truthy (entry_name e)) eqn:En.
    + destruct (IH (fmap_set m (entry_name e) (entry_value e))) as
        (fm & Hfm & Htr & Hget).
      * now apply fmap_set_plain.
      * now apply fmap_set_truthy.
      * exists fm. repeat split; auto.
        intros k dflt Hk. rewrite (Hget k dflt Hk).
        cbn [last_value]. unfold named. rewrite En. cbn [andb].
        now rewrite (fmap_get_set m _ _ k dflt Hm Hp Hk).
    + destruct (IH m Hm Ht) as (fm & Hfm & Htr & Hget).
      exists fm. repeat split; auto.
      intros k dflt Hk. rewrite (Hget k dflt Hk).
      cbn [last_value]. unfold named. now rewrite En.
Qed.





End ReduceFacts.


(** ** Rows on which the formatter raises *)

Section RaisingRows.
Context `{PyLib}.

(** C10. A row that qualifies for the identity line and whose first or
    last name is present without being a string makes the row renderer
    raise [TypeError], and there is a payload on which
    [_format_search_api_results] raises it.  Both front ends. *)
Theorem format_raises_on_name_that_is_no_string :
  (forall row fm,
      Shared.row_field_map row = Ok fm ->
      truthy (username_of fm) || truthy (email_of fm) || truthy (uid_of fm)
      = true ->
      is_str (first_name_of fm) = false \/ is_str (last_name_of fm) = false ->
      JcCli.format_row row = Raise TypeError
      /\ AppV1.format_row row = Raise TypeError)
  /\ (exists inner,
      JcCli._format_search_api_results inner = Raise TypeError
      /\ AppV1._format_search_api_results inner = Raise TypeError).
Proof.
  split.
  - intros row fm Hfm Hany Hname.
    unfold JcCli.format_row, AppV1.format_row.
    rewrite Hfm; cbn [bind]. cbv zeta.
    fold (first_name_of fm) (last_name_of fm) (email_of fm)
         (username_of fm) (uid_of fm).
    rewrite !truthy_py_or, orb_assoc, Hany.
    destruct Hname as [Hname | Hname].
    + destruct (first_name_of fm); try discriminate Hname;
        split; reflexivity.
    + destruct (last_name_of fm); try discriminate Hname;
        (destruct (first_name_of fm); split; reflexivity).
  - exists (payload_of [numeric_name_row]). split; reflexivity.
Qed.

End RaisingRows.

(** The row with the number 7 as first name. *)
Example format_raises_on_name_that_is_no_string_witness :
  @JcCli.format_row sample_lib numeric_name_row = Raise TypeError
  /\ @AppV1.format_row sample_lib numeric_name_row = Raise TypeError.
Proof.
  apply (proj1 (@format_raises_on_name_that_is_no_string sample_lib)
           numeric_name_row
           [(PStr (lit "user.email"), PStr (lit "a@x.com"));
            (PStr (lit "user.first_name"), PInt 7)]).
  - reflexivity.
  - reflexivity.
  - left; reflexivity.
Defined.



(** ** Delivery by the Slack front ends *)

Lemma slack_fallback_message_length (user_query dump : pystr) :
  length (slack_fallback_message user_query dump)
  = length user_query + length dump + 88.
Proof.
  unfold slack_fallback_message. rewrite !length_app. cbn. lia.
Qed.

Lemma slack_formatted_message_length (user_query formatted : pystr) :
  length (slack_formatted_message user_query formatted)
  = length user_query + length formatted + 13.
Proof.
  unfold slack_formatted_message. rewrite !length_app. cbn. lia.
Qed.

Lemma truncated_length (raw_json : pystr) (n : nat) :
  length (App.truncated raw_json n) <= n + length App.truncation_marker.
Proof.
  unfold App.truncated.
  destruct (Nat.ltb_spec n (length raw_json)).
  - rewrite length_app, length_firstn. lia.
  - lia.
Qed.

Section DeliveryFacts.
Context `{PyLib} `{McpClient}.

Lemma command_of_admin (admins : list pystr) (body : dict) (user text : pystr) :
  command_of admins body user text ->
  dict_get body (lit "user_id") PNone = PStr user
  /\ truthy (PStr user) = true
  /\ existsb (pystr_eqb user) admins = true
  /\ truthy (PStr text) = true.
Proof.
  intros (Hu & Hne & Hin & _ & Ht).
  unfold dict_get. rewrite Hu. repeat split.
  - destruct user; [contradiction | reflexivity].
  - apply existsb_exists. exists user. split; [exact Hin |].
    apply pystr_eqb_refl.
  - destruct text; [contradiction | reflexivity].
Qed.

(** C7, as the code has it.  The handler of appv1.py applies no bounder:
    it delivers the message of [format_search_api_slack_message] as it
    is.  That message embeds, on the fallback path, the first 2700
    characters of the raw dump, cut inside the message builder without a
    marker, and, on the formatted path, the whole text of the formatter.
    The handler of app.py bounds the raw dump once, after it is
    produced, to 2800 characters plus the marker, and wraps the query
    and the code fence around it. *)
Theorem slack_delivery_and_bounds :
  (forall env admins body user text r msg,
      command_of admins body user text ->
      AppV1.mcp_search_api_sync env text = Ok r ->
      AppV1.format_search_api_slack_message text r = Ok msg ->
      AppV1.handle_jc_command env admins body
      = Ok [working_message text; msg])
  /\ (forall user_query r,
      Shared._extract_inner_json_from_search_api_result r = Ok None ->
      AppV1.format_search_api_slack_message user_query r
      = Ok (slack_fallback_message user_query (firstn 2700 (raw_dump r)))
      /\ length (slack_fallback_message user_query (firstn 2700 (raw_dump r)))
         <= length user_query + 2700 + 88)
  /\ (forall user_query r inner formatted,
      Shared._extract_inner_json_from_search_api_result r = Ok (Some inner) ->
      AppV1._format_search_api_results inner = Ok formatted ->
      AppV1.format_search_api_slack_message user_query r
      = Ok (slack_formatted_message user_query formatted)
      /\ length (slack_formatted_message user_query formatted)
         = length user_query + length formatted + 13)
  /\ (forall env admins body user text raw_json,
      command_of admins body user text ->
      App.mcp_search_api_sync env text = Ok raw_json ->
      App.handle_jc_command env admins body
      = Ok [app_message text (App.truncated raw_json App.MAX_LEN)]
      /\ length (App.truncated raw_json App.MAX_LEN)
         <= 2800 + length App.truncation_marker).
Proof.
  split; [| split; [| split]].
  - intros env admins body user text r msg Hcmd Hcall Hmsg.
    destruct (command_of_admin _ _ _ _ Hcmd) as (Hu & Htu & Hadm & Htt).
    destruct Hcmd as (_ & _ & _ & Hstrip & _).
    unfold AppV1.handle_jc_command. cbv zeta.
    rewrite Hu, Htu. cbn [AppV1.is_admin bind]. rewrite Hadm.
    cbn [bind negb orb]. rewrite Hstrip. cbn [bind]. rewrite Htt.
    cbn [negb]. rewrite Hcall. cbn [bind]. rewrite Hmsg. reflexivity.
  - intros user_query r Hex.
    split.
    + unfold AppV1.format_search_api_slack_message. rewrite Hex.
      cbn [bind]. unfold raw_dump, slack_fallback_message.
      destruct (model_dump_json r); reflexivity.
    + rewrite slack_fallback_message_length.
      pose proof (firstn_le_length 2700 (raw_dump r)). lia.
  - intros user_query r inner formatted Hex Hfmt.
    split.
    + unfold AppV1.format_search_api_slack_message. rewrite Hex.
      cbn [bind]. rewrite Hfmt. reflexivity.
    + apply slack_formatted_message_length.
  - intros env admins body user text raw_json Hcmd Hcall.
    split; [| apply truncated_length].
    destruct (command_of_admin _ _ _ _ Hcmd) as (Hu & Htu & Hadm & Htt).
    destruct Hcmd as (_ & _ & _ & Hstrip & _).
    unfold App.handle_jc_command. cbv zeta.
    rewrite Hu, Htu. cbn [App.is_admin bind]. rewrite Hadm.
    cbn [bind negb orb]. rewrite Hstrip. cbn [bind]. rewrite Htt.
    cbn [negb]. rewrite Hcall. reflexivity.
Qed.

End DeliveryFacts.

(** The command [users] of an administrator, answered with an envelope
    whose explanation has 3000 characters: the message delivered holds
    all of them. *)
Example slack_delivery_and_bounds_witness :
  exists msg,
    @AppV1.handle_jc_command sample_lib (client_returning long_envelope)
      sample_env [lit "U1"] sample_body
    = Ok [working_message (lit "users"); msg]
    /\ (3000 <? length msg)%nat = true.
Proof.
  eexists. split.
  - apply (proj1 (@slack_delivery_and_bounds sample_lib
                    (client_returning long_envelope))
             sample_env [lit "U1"] sample_body (lit "U1") (lit "users")
             long_envelope).
    + repeat split; try discriminate. left; reflexivity.
    + reflexivity.
    + vm_compute. reflexivity.
  - vm_compute. reflexivity.
Defined.

(** C7, as stated, fails: that message is longer than 2800 characters
    plus the marker. *)
Example slack_message_exceeds_budget : ~ slack_messages_within_budget.
Proof.
  intros Hclaim.
  pose proof (Hclaim sample_lib (client_returning long_envelope) sample_env
                [lit "U1"] sample_body _ eq_refl) as Hsent.
  inversion Hsent as [| w rest _ Hrest]; subst.
  inversion Hrest as [| msg rest' Hlen _]; subst.
  apply Nat.leb_le in Hlen. vm_compute in Hlen. discriminate Hlen.
Qed.

(** ** Further properties of the pipeline *)

Section PipelineFacts.
Context `{PyLib} `{McpClient}.

(** An envelope without a mapping under [structuredContent] and without
    an item that yields an object has no structured payload: its
    [content] is absent, false, a list of blocks none of which yields an
    object, or a plain string, list or mapping. *)
Theorem extract_none_without_object (result : CallToolResult) :
  is_dict (getattr (structuredContent result)) = false ->
  scannable (content result) = true ->
  (forall items,
      content result = Some (Items items) -> Forall yields_nothing items) ->
  Shared._extract_inner_json_from_search_api_result result = Ok None.
Proof.
  intros Hs Hi Hc.
  assert (Hscan : forall items, Forall yields_nothing items ->
                                Shared.scan_content items = Ok None).
  { intros items Hn. induction Hn as [| x items Hx _ IH]; cbn.
    - reflexivity.
    - rewrite (scan_item_skip _ Hx). exact IH. }
  rewrite (extract_of_content result Hs).
  destruct (content result) as [[items | o] |]; [| | reflexivity].
  - apply Hscan. now apply Hc.
  - cbn [scannable] in Hi. destruct (truthy o); [| reflexivity].
    destruct o; try discriminate Hi; reflexivity.
Qed.

(** The raw-dump front end (app.py) reads no text item: it dumps
    whatever [structuredContent] holds, mapping or not, unless that is
    [None] or absent, and then the whole envelope. *)
Theorem app_sync_dumps_structured_content
    (env : Env) (query : pystr) (r : CallToolResult) :
  session_returns env query r ->
  App.mcp_search_api_sync env query
  = if is_None (getattr (structuredContent r))
    then Ok (raw_dump r)
    else json_dumps (getattr (structuredContent r)).
Proof.
  intros Hsession. unfold App.mcp_search_api_sync.
  rewrite (mcp_search_api_returns env query r Hsession). cbn [bind].
  cbv zeta. destruct (is_None (getattr (structuredContent r))); cbn [negb].
  - unfold raw_dump. destruct (model_dump_json r); reflexivity.
  - reflexivity.
Qed.

(** The round trip of the specification: a text item that parses to an
    object with the explanation [x] and an empty result list gives, on
    the command line, the query, the explanation and the line
    [No results found.], and nothing else. *)
Theorem cli_round_trip_no_results (user_query s : pystr) :
  json_loads s = Ok (PDict round_trip_object) ->
  JcCli.format_for_cli user_query
    {| structuredContent := None;
       content := Some (Items [ {| text := Some (PStr s) |} ]);
       isError := false |}
  = Ok (lit "Query: " ++ user_query ++ nl ++ nl
        ++ join nl [lit "Explanation:"; lit "x"; []; lit "No results found."]).
Proof.
  intros Hs. unfold JcCli.format_for_cli.
  unfold Shared._extract_inner_json_from_search_api_result.
  cbn [getattr structuredContent content content_truthy content_iter negb
       Shared.scan_content Shared.scan_item text try_except bind].
  rewrite Hs. reflexivity.
Qed.

(** The scenario of the specification: a user row and a device row give
    one identity line and one generic line, in that order. *)
Theorem cli_user_and_device_rows :
  JcCli._format_search_api_results (payload_of [user_row; device_row])
  = Ok (join nl [cli_header 2; lit " - ak | <a@x.com>";
                 lit " - device.name=laptop1"]).
Proof. reflexivity. Qed.

Lemma all_str_app_raises (a b : list pyval) (e : exn) :
  all_str a = Raise e -> all_str (a ++ b) = Raise e.
Proof.
  induction a as [| x a IH]; cbn; intros Ha; [discriminate Ha |].
  destruct x; try exact Ha.
  destruct (all_str a) as [ss | e'] eqn:E; cbn in Ha; [discriminate Ha |].
  now rewrite (IH Ha).
Qed.

Lemma cli_results_section_raises
    (rs lines : list pyval) (row_lines : list pystr) (e : exn) :
  all_str lines = Raise e ->
  rows_rendered JcCli.format_row rs row_lines ->
  JcCli.results_section (py_or (PList rs) (PList [])) lines = Raise e.
Proof.
  intros Hl Hr. unfold JcCli.results_section.
  destruct rs as [| r rs'].
  - cbn [py_or truthy negb]. unfold str_join.
    now rewrite (all_str_app_raises _ _ _ Hl).
  - cbn [py_or truthy negb py_len bind slice_to py_iter].
    unfold JcCli.MAX_ROWS.
    rewrite (cli_for_rows_rendered _ _ _ Hr); cbn [bind].
    destruct (20 <? length (r :: rs'))%nat; unfold str_join;
      rewrite <- ?app_assoc; now rewrite (all_str_app_raises _ _ _ Hl).
Qed.

(** The two formatters differ on an explanation that is not a string
    (a true value of a printable payload whose rows render): the
    command-line one appends the value itself to its lines and raises
    [TypeError] when it joins them, where the Slack one prints it
    through an f-string under the heading of the explanation. *)
Theorem formatters_differ_on_explanation_that_is_no_string
    (inner : dict) (rs : list pyval) :
  payload_results inner rs ->
  printable (PDict inner) = true ->
  truthy (explanation_of inner) = true ->
  is_str (explanation_of inner) = false ->
  (forall row_lines,
      rows_rendered JcCli.format_row rs row_lines ->
      JcCli._format_search_api_results inner = Raise TypeError)
  /\ (forall row_lines,
      rows_rendered AppV1.format_row rs row_lines ->
      exists rest,
        slack_preamble inner
        = (lit "*Explanation:*" ++ nl ++ py_str (explanation_of inner) ++ nl)
          :: rest
        /\ AppV1._format_search_api_results inner
           = Ok (join nl (slack_preamble inner
                          ++ results_lines slack_header slack_more_note
                               (lit "_No results found._") (length rs)
                               row_lines))).
Proof.
  intros Hp _ Ht Hs. split.
  - intros row_lines Hrows.
    destruct (payload_results_read _ _ Hp) as (qr & m & Hq & Hm & Hr & Hqt).
    unfold JcCli._format_search_api_results. cbv zeta.
    rewrite Hq. cbn [get bind]. rewrite Hm, Hr. cbn [get bind].
    apply cli_results_section_raises with (row_lines := row_lines);
      [| exact Hrows].
    fold (explanation_of inner). rewrite Ht.
    set (ra := dict_get inner (lit "rationale") PNone).
    set (qt := dict_get m (lit "queryTime") PNone).
    destruct (explanation_of inner); try discriminate Hs;
      try discriminate Ht;
      (destruct (truthy ra); destruct (negb (is_None qt)); reflexivity).
  - intros row_lines Hrows. eexists. split.
    + unfold slack_preamble. rewrite Ht. reflexivity.
    + now apply slack_format_rendered.
Qed.

End PipelineFacts.

(** The sample envelopes: one with a list under [structuredContent], one
    without the attribute. *)
Example app_sync_dumps_structured_content_witness :
  @App.mcp_search_api_sync sample_lib
    (client_returning
       {| structuredContent := Some (PList [PInt 1]);
          content := Some (Items [ {| text := Some (PStr sample_text) |} ]);
          isError := false |})
    sample_env (lit "users")
  = Ok (lit "{}").
Proof.
  rewrite (@app_sync_dumps_structured_content sample_lib _ sample_env
             (lit "users")
             {| structuredContent := Some (PList [PInt 1]);
                content :=
                  Some (Items [ {| text := Some (PStr sample_text) |} ]);
                isError := false |}).
  - reflexivity.
  - repeat split.
Defined.

Example extract_none_without_object_witness :
  @Shared._extract_inner_json_from_search_api_result sample_lib
    {| structuredContent := None;
       content := Some (Items [ {| text := Some (PStr (lit "7")) |};
                         {| text := None |} ]);
       isError := false |}
  = Ok None.
Proof.
  apply (@extract_none_without_object sample_lib).
  - reflexivity.
  - reflexivity.
  - intros items Hitems. injection Hitems as <-.
    repeat constructor; intros d (s & Ht & Hj); cbn in Ht;
      try discriminate Ht; injection Ht as <-; vm_compute in Hj;
      discriminate Hj.
Defined.

Example cli_round_trip_no_results_witness :
  @JcCli.format_for_cli sample_lib (lit "users")
    {| structuredContent := None;
       content := Some (Items [ {| text := Some (PStr round_trip_text) |} ]);
       isError := false |}
  = Ok (lit "Query: users" ++ nl ++ nl
        ++ join nl [lit "Explanation:"; lit "x"; []; lit "No results found."]).
Proof.
  apply (@cli_round_trip_no_results sample_lib (lit "users") round_trip_text).
  reflexivity.
Defined.

(** The number 5 as explanation of a payload with one device row. *)
Example formatters_differ_on_explanation_that_is_no_string_witness :
  @JcCli._format_search_api_results sample_lib
    [(lit "explanation", PInt 5);
     (lit "query_result", PDict [(lit "results", PList [device_row])])]
  = Raise TypeError
  /\ @AppV1._format_search_api_results sample_lib
       [(lit "explanation", PInt 5);
        (lit "query_result", PDict [(lit "results", PList [device_row])])]
     = Ok (join nl [lit "*Explanation:*" ++ nl ++ lit "5" ++ nl;
                    slack_header 1;
                    AppV1.bullet ++ lit " *device.name*: `laptop1`"]).
Proof.
  assert (Hp : payload_results
                 [(lit "explanation", PInt 5);
                  (lit "query_result",
                   PDict [(lit "results", PList [device_row])])]
                 [device_row]).
  { eexists. repeat split. }
  split.
  - apply (proj1 (@formatters_differ_on_explanation_that_is_no_string
                    sample_lib _ [device_row] Hp eq_refl eq_refl eq_refl)
             [lit " - device.name=laptop1"]).
    repeat constructor.
  - destruct (proj2 (@formatters_differ_on_explanation_that_is_no_string
                       sample_lib _ [device_row] Hp eq_refl eq_refl eq_refl)
                [AppV1.bullet ++ lit " *device.name*: `laptop1`"])
      as (rest & _ & Hfmt).
    + repeat constructor.
    + rewrite Hfmt. reflexivity.
Defined.

(** ** White space, splitting and the allowlist *)

Lemma lstrip_length (s : pystr) : length (lstrip s) <= length s.
Proof.
  induction s as [| c s IH]; cbn; [lia |].
  destruct (isspace c); cbn; lia.
Qed.

Lemma lstrip_idem (s : pystr) : lstrip (lstrip s) = lstrip s.
Proof.
  induction s as [| c s IH]; cbn; [reflexivity |].
  destruct (isspace c) eqn:E; [exact IH |]. cbn. now rewrite E.
Qed.

Lemma lstrip_all_space (l s : pystr) : all_space l -> lstrip (l ++ s) = lstrip s.
Proof.
  intros Hl. induction Hl as [| c l Hc _ IH]; cbn; [reflexivity |].
  now rewrite Hc.
Qed.

Lemma lstrip_keeps (c : N) (s : pystr) :
  isspace c = false -> lstrip (c :: s) = c :: s.
Proof. intros Hc. cbn. now rewrite Hc. Qed.

Lemma lstrip_fixed_head (s : pystr) :
  lstrip s = s -> s = [] \/ exists c s', s = c :: s' /\ isspace c = false.
Proof.
  destruct s as [| c s']; [now left |]. intros Hs. right.
  exists c, s'. split; [reflexivity |].
  destruct (isspace c) eqn:E; [| reflexivity].
  cbn in Hs. rewrite E in Hs.
  pose proof (lstrip_length s') as Hlen. rewrite Hs in Hlen. cbn in Hlen. lia.
Qed.

Lemma lstrip_app_keeps (u : pystr) (c : N) :
  isspace c = false -> lstrip (u ++ [c]) = lstrip u ++ [c].
Proof.
  intros Hc. induction u as [| d u IH]; cbn.
  - now rewrite Hc.
  - destruct (isspace d); [exact IH | reflexivity].
Qed.

Lemma rstrip_keeps_head (c : N) (s : pystr) :
  isspace c = false -> rstrip (c :: s) = c :: rstrip s.
Proof.
  intros Hc. unfold rstrip. cbn [rev].
  rewrite (lstrip_app_keeps _ c Hc), rev_app_distr. reflexivity.
Qed.

Lemma rstrip_idem (s : pystr) : rstrip (rstrip s) = rstrip s.
Proof. unfold rstrip. now rewrite rev_involutive, lstrip_idem. Qed.

Lemma rstrip_all_space (s r : pystr) : all_space r -> rstrip (s ++ r) = rstrip s.
Proof.
  intros Hr. unfold rstrip. rewrite rev_app_distr.
  rewrite lstrip_all_space; [reflexivity |].
  unfold all_space in *. rewrite Forall_forall in *.
  intros c Hin. apply Hr. now apply in_rev.
Qed.

Lemma strip_trimmed (s : pystr) : trimmed (strip s).
Proof.
  unfold trimmed, strip. split; [| apply rstrip_idem].
  destruct (lstrip_fixed_head (lstrip s) (lstrip_idem s))
    as [E | (c & s' & E & Hc)]; rewrite E.
  - reflexivity.
  - rewrite (rstrip_keeps_head c s' Hc). now apply lstrip_keeps.
Qed.

Lemma strip_of_trimmed (s : pystr) : trimmed s -> strip s = s.
Proof. intros [Hl Hr]. unfold strip. now rewrite Hl. Qed.

Lemma strip_all_space (s : pystr) : all_space s -> strip s = [].
Proof.
  intros Hs. unfold strip.
  rewrite <- (app_nil_r s), (lstrip_all_space s [] Hs). reflexivity.
Qed.

Lemma strip_padded (l uid r : pystr) :
  all_space l -> all_space r -> uid <> [] -> trimmed uid ->
  strip (l ++ uid ++ r) = uid.
Proof.
  intros Hl Hr Hne [Htl Htr]. unfold strip.
  rewrite (lstrip_all_space l _ Hl).
  destruct (lstrip_fixed_head uid Htl) as [E | (c & s' & E & Hc)];
    [contradiction |].
  assert (Hkeep : lstrip (uid ++ r) = uid ++ r).
  { rewrite E. cbn. now rewrite Hc. }
  rewrite Hkeep, (rstrip_all_space uid r Hr). exact Htr.
Qed.

Lemma all_space_no_comma (s : pystr) : all_space s -> ~ In Config.comma s.
Proof.
  intros Hs Hin. unfold all_space in Hs. rewrite Forall_forall in Hs.
  specialize (Hs _ Hin). discriminate Hs.
Qed.

Lemma split_sep_free (sep : N) (w : pystr) :
  ~ In sep w -> Config.split sep w = [w].
Proof.
  induction w as [| c w IH]; intros Hw; cbn; [reflexivity |].
  destruct (N.eqb_spec c sep) as [-> | Hne]; [exfalso; apply Hw; now left |].
  rewrite IH; [reflexivity |]. intros Hin. apply Hw. now right.
Qed.

Lemma split_app (sep : N) (w rest : pystr) :
  ~ In sep w ->
  Config.split sep (w ++ sep :: rest) = w :: Config.split sep rest.
Proof.
  induction w as [| c w IH]; intros Hw; cbn.
  - now rewrite N.eqb_refl.
  - destruct (N.eqb_spec c sep) as [-> | Hne]; [exfalso; apply Hw; now left |].
    rewrite IH; [reflexivity |]. intros Hin. apply Hw. now right.
Qed.

Lemma split_join (sep : N) (ws : list pystr) :
  ws <> [] -> Forall (fun w => ~ In sep w) ws ->
  Config.split sep (join [sep] ws) = ws.
Proof.
  intros Hne Hws. induction Hws as [| w ws Hw Hws IH]; [contradiction |].
  destruct ws as [| w' ws'].
  - cbn. now apply split_sep_free.
  - change (join [sep] (w :: w' :: ws'))
      with (w ++ sep :: join [sep] (w' :: ws')).
    rewrite (split_app sep w _ Hw), IH; [reflexivity | discriminate].
Qed.

Lemma split_blank (s : pystr) :
  Forall (fun c => isspace c = true \/ c = Config.comma) s ->
  Forall all_space (Config.split Config.comma s).
Proof.
  intros Hs. induction Hs as [| c s Hc _ IH]; cbn.
  - repeat constructor.
  - destruct (N.eqb_spec c Config.comma) as [-> | Hne].
    + constructor; [constructor | exact IH].
    + destruct Hc as [Hc | Hc]; [| contradiction].
      destruct (Config.split Config.comma s) as [| w ws].
      * repeat constructor. exact Hc.
      * inversion IH as [| w' ws' Hw Hws]; subst.
        constructor; [constructor; assumption | exact Hws].
Qed.

Lemma admin_ids_of_padded (items : list (pystr * pystr * pystr)) :
  Forall padded_ok items ->
  map strip (filter (fun uid => truthy (PStr (strip uid))) (map padded items))
  = map id_of items.
Proof.
  intros Hitems. induction Hitems as [| [[l uid] r] items Hi _ IH];
    [reflexivity |].
  destruct Hi as (Hl & (Hne & Htr & _) & Hr).
  assert (Ht : truthy (PStr uid) = true)
    by (destruct uid; [contradiction | reflexivity]).
  rewrite map_cons. cbn [filter padded id_of].
  rewrite (strip_padded l uid r Hl Hr Hne Htr), Ht.
  rewrite map_cons, (strip_padded l uid r Hl Hr Hne Htr), map_cons.
  cbn [id_of]. now rewrite IH.
Qed.

Lemma padded_no_comma (item : pystr * pystr * pystr) :
  padded_ok item -> ~ In Config.comma (padded item).
Proof.
  destruct item as [[l uid] r]. intros (Hl & (_ & _ & Hu) & Hr) Hin.
  cbn in Hin. rewrite !in_app_iff in Hin.
  destruct Hin as [Hin | [Hin | Hin]].
  - exact (all_space_no_comma l Hl Hin).
  - exact (Hu Hin).
  - exact (all_space_no_comma r Hr Hin).
Qed.

(** Every element of the allowlist is a non-empty string without white
    space around it, whatever the variable holds. *)
Theorem admin_ids_are_trimmed (value : option pystr) :
  Forall (fun uid => uid <> [] /\ trimmed uid) (Config.ADMIN_USER_IDS value).
Proof.
  unfold Config.ADMIN_USER_IDS. cbv zeta.
  match goal with
  | |- Forall _ (map strip (filter _ ?p)) => generalize p
  end.
  intros pieces. induction pieces as [| w ws IH]; cbn [filter map].
  - constructor.
  - destruct (strip w) as [| c t] eqn:E; cbn [truthy]; [exact IH |].
    cbn [map]. constructor; [| exact IH].
    rewrite E. split; [discriminate |].
    rewrite <- E. apply strip_trimmed.
Qed.

(** Round trip of the allowlist: ids written one after the other with
    commas between them, each with any white space around it, are read
    back as exactly these ids (the list that stands for the set holds
    them in the order of the variable); and a user is an administrator
    exactly when its id is one of them. *)
Theorem admin_ids_round_trip (items : list (pystr * pystr * pystr)) :
  Forall padded_ok items ->
  Config.ADMIN_USER_IDS (Some (join [Config.comma] (map padded items)))
  = map id_of items
  /\ forall u,
      (AppV1.is_admin
         (Config.ADMIN_USER_IDS (Some (join [Config.comma] (map padded items))))
         (PStr u) = Ok true <-> In u (map id_of items))
      /\ (App.is_admin
            (Config.ADMIN_USER_IDS
               (Some (join [Config.comma] (map padded items))))
            (PStr u) = Ok true <-> In u (map id_of items)).
Proof.
  intros Hitems.
  assert (Hids : Config.ADMIN_USER_IDS
                   (Some (join [Config.comma] (map padded items)))
                 = map id_of items).
  { unfold Config.ADMIN_USER_IDS. cbv zeta.
    set (text := join [Config.comma] (map padded items)).
    assert (Htext : match py_or (Config.getenv (Some text)) (PStr []) with
                    | PStr s => s
                    | _ => []
                    end = text).
    { unfold py_or. cbn. destruct text; reflexivity. }
    rewrite Htext. unfold text.
    destruct items as [| item items'].
    - reflexivity.
    - rewrite split_join.
      + now apply admin_ids_of_padded.
      + discriminate.
      + rewrite Forall_map. apply (Forall_impl _ padded_no_comma Hitems). }
  split; [exact Hids |].
  intros u. rewrite Hids. unfold AppV1.is_admin, App.is_admin.
  assert (Hmem : forall ids, existsb (pystr_eqb u) ids = true <-> In u ids).
  { intros ids. rewrite existsb_exists. split.
    - intros (x & Hin & Heq). apply pystr_eqb_eq in Heq. now subst.
    - intros Hin. exists u. split; [exact Hin | apply pystr_eqb_refl]. }
  split; (split; [intros E; apply Hmem; congruence
                 | intros Hin; apply Hmem in Hin; now rewrite Hin]).
Qed.

(** The ids [U1], [U2] and [U3], the second with a space before it and
    the third between two spaces. *)
Example admin_ids_round_trip_witness :
  Config.ADMIN_USER_IDS (Some (lit "U1, U2, U3 ")) = [lit "U1"; lit "U2"; lit "U3"].
Proof.
  apply (proj1 (admin_ids_round_trip
                  [([], lit "U1", []); (lit " ", lit "U2", []);
                   (lit " ", lit "U3", lit " ")]
                  ltac:(repeat constructor; try discriminate;
                        intros Hin; cbn in Hin; intuition discriminate))).
Defined.

Lemma blank_allowlist_is_empty (value : option pystr) :
  blank_allowlist value -> Config.ADMIN_USER_IDS value = [].
Proof.
  intros Hb. unfold Config.ADMIN_USER_IDS. cbv zeta.
  match goal with
  | |- map strip (filter _ ?p) = [] => assert (Hpieces : Forall all_space p)
  end.
  { destruct value as [s |]; unfold blank_allowlist in Hb.
    - match goal with
      | |- context [Config.split _ ?t] =>
          assert (Htext : t = s) by (destruct s; reflexivity);
          rewrite Htext
      end.
      now apply split_blank.
    - cbn. repeat constructor. }
  revert Hpieces.
  match goal with
  | |- Forall _ ?p -> _ => generalize p
  end.
  intros pieces Hpieces.
  induction Hpieces as [| w ws Hw _ IH]; cbn [filter map]; [reflexivity |].
  rewrite (strip_all_space w Hw). exact IH.
Qed.

(** ** The Slack handlers *)

Section HandlerFacts.
Context `{PyLib} `{McpClient}.

Lemma not_admin_checked (admins : list pystr) (body : dict) :
  not_admin admins body ->
  truthy (dict_get body (lit "user_id") PNone) = false
  \/ exists u, dict_get body (lit "user_id") PNone = PStr u
               /\ truthy (PStr u) = true
               /\ existsb (pystr_eqb u) admins = false.
Proof.
  unfold dict_get. intros [Hnone | (u & Hu & Hnot)].
  - rewrite Hnone. now left.
  - rewrite Hu. destruct u as [| c u']; [now left |]. right.
    exists (c :: u'). repeat split.
    destruct (existsb (pystr_eqb (c :: u')) admins) eqn:E; [| reflexivity].
    apply existsb_exists in E. destruct E as (x & Hin & Heq).
    apply pystr_eqb_eq in Heq. subst x. contradiction.
Qed.

(** A command whose sender is not on the allowlist (no [user_id], or an
    id that is not among the administrators) is answered with the
    refusal alone by both handlers, whatever its text and whatever the
    remote end would do. *)
Theorem handlers_reject_unauthorized
    (env : Env) (admins : list pystr) (body : dict) :
  not_admin admins body ->
  AppV1.handle_jc_command env admins body = Ok [no_entry_message]
  /\ App.handle_jc_command env admins body = Ok [no_entry_message].
Proof.
  intros Hna.
  unfold AppV1.handle_jc_command, App.handle_jc_command. cbv zeta.
  destruct (not_admin_checked _ _ Hna) as [Hf | (u & Hu & Ht & Hadm)].
  - rewrite Hf. split; reflexivity.
  - rewrite Hu, Ht. cbn [AppV1.is_admin App.is_admin bind].
    rewrite Hadm. split; reflexivity.
Qed.

Lemma blank_command_checked (admins : list pystr) (body : dict) (user : pystr) :
  blank_command admins body user ->
  dict_get body (lit "user_id") PNone = PStr user
  /\ truthy (PStr user) = true
  /\ existsb (pystr_eqb user) admins = true
  /\ py_strip (py_or (dict_get body (lit "text") PNone) (PStr [])) = Ok [].
Proof.
  intros (Hu & Hne & Hin & Htext).
  unfold dict_get. rewrite Hu. repeat split.
  - destruct user; [contradiction | reflexivity].
  - apply existsb_exists. exists user. split; [exact Hin |].
    apply pystr_eqb_refl.
  - destruct Htext as [Hnone | (t & Ht & Hsp)].
    + rewrite Hnone. reflexivity.
    + rewrite Ht. unfold py_or.
      destruct (truthy (PStr t)); cbn [py_strip];
        [now rewrite (strip_all_space t Hsp) | reflexivity].
Qed.

(** A command of an administrator without text, or with white space
    only, is answered with the usage line alone; nothing is sent to the
    remote end. *)
Theorem handlers_ask_for_text
    (env : Env) (admins : list pystr) (body : dict) (user : pystr) :
  blank_command admins body user ->
  AppV1.handle_jc_command env admins body = Ok [usage_message]
  /\ App.handle_jc_command env admins body = Ok [usage_message].
Proof.
  intros Hb.
  destruct (blank_command_checked _ _ _ Hb) as (Hu & Ht & Hadm & Hstrip).
  unfold AppV1.handle_jc_command, App.handle_jc_command. cbv zeta.
  rewrite Hu, Ht. cbn [AppV1.is_admin App.is_admin bind].
  rewrite Hadm. cbn [bind negb orb]. rewrite Hstrip.
  split; reflexivity.
Qed.

(** Whatever the invoker or the message builder raises while a command
    of an administrator is served is caught: the handler returns
    normally and delivers the warning with the text of the exception (in
    appv1.py after the notice that it is working). *)
Theorem handlers_report_exceptions
    (env : Env) (admins : list pystr) (body : dict) (user text : pystr)
    (e : exn) :
  command_of admins body user text ->
  (AppV1.mcp_search_api_sync env text = Raise e
   \/ (exists r, AppV1.mcp_search_api_sync env text = Ok r
                 /\ AppV1.format_search_api_slack_message text r = Raise e) ->
   AppV1.handle_jc_command env admins body
   = Ok [working_message text; warning_message e])
  /\ (App.mcp_search_api_sync env text = Raise e ->
      App.handle_jc_command env admins body = Ok [warning_message e]).
Proof.
  intros Hcmd.
  destruct (command_of_admin _ _ _ _ Hcmd) as (Hu & Htu & Hadm & Htt).
  destruct Hcmd as (_ & _ & _ & Hstrip & _).
  split.
  - intros Hraise.
    unfold AppV1.handle_jc_command. cbv zeta.
    rewrite Hu, Htu. cbn [AppV1.is_admin bind]. rewrite Hadm.
    cbn [bind negb orb]. rewrite Hstrip. cbn [bind]. rewrite Htt.
    cbn [negb].
    destruct Hraise as [Hcall | (r & Hcall & Hmsg)]; rewrite Hcall;
      cbn [bind]; [| rewrite Hmsg]; reflexivity.
  - intros Hcall.
    unfold App.handle_jc_command. cbv zeta.
    rewrite Hu, Htu. cbn [App.is_admin bind]. rewrite Hadm.
    cbn [bind negb orb]. rewrite Hstrip. cbn [bind]. rewrite Htt.
    cbn [negb]. rewrite Hcall. reflexivity.
Qed.

End HandlerFacts.

Section HandlerShape.
Context `{PyLib} `{McpClient}.

Lemma slack_text_stripped (body : dict) :
  slack_value (dict_lookup (lit "text") body) ->
  exists text,
    py_strip (py_or (dict_get body (lit "text") PNone) (PStr [])) = Ok text.
Proof.
  unfold slack_value, dict_get.
  destruct (dict_lookup (lit "text") body) as [v |]; intros Hv.
  - destruct v; try discriminate Hv. unfold py_or.
    destruct (truthy (PStr s)); eexists; reflexivity.
  - eexists; reflexivity.
Qed.

Lemma slack_user_id (body : dict) :
  slack_value (dict_lookup (lit "user_id") body) ->
  dict_get body (lit "user_id") PNone = PNone
  \/ exists s, dict_get body (lit "user_id") PNone = PStr s.
Proof.
  unfold slack_value, dict_get.
  destruct (dict_lookup (lit "user_id") body) as [v |]; intros Hv.
  - destruct v; try discriminate Hv. right. eexists; reflexivity.
  - now left.
Qed.

(** On a command body as Slack sends it (the user id and the text are
    strings, or absent) neither handler raises: app.py delivers exactly
    one message, appv1.py one message or, when it calls the remote end,
    the working notice followed by exactly one more. *)
Theorem handlers_always_respond
    (env : Env) (admins : list pystr) (body : dict) :
  slack_value (dict_lookup (lit "user_id") body) ->
  slack_value (dict_lookup (lit "text") body) ->
  (exists m,
      AppV1.handle_jc_command env admins body = Ok [m]
      \/ exists text,
          AppV1.handle_jc_command env admins body
          = Ok [working_message text; m])
  /\ (exists m, App.handle_jc_command env admins body = Ok [m]).
Proof.
  intros Hu Ht.
  destruct (slack_text_stripped body Ht) as [text Hstrip].
  destruct (slack_user_id body Hu) as [Euid | [s Euid]].
  - unfold AppV1.handle_jc_command, App.handle_jc_command. cbv zeta.
    rewrite Euid. cbn [truthy bind negb orb].
    split; eexists; [left |]; reflexivity.
  - unfold AppV1.handle_jc_command, App.handle_jc_command. cbv zeta.
    rewrite Euid, Hstrip.
    destruct (truthy (PStr s)) eqn:Ets;
      [| cbn [bind negb orb]; split; eexists; [left |]; reflexivity].
    cbn [AppV1.is_admin App.is_admin bind negb orb].
    destruct (existsb (pystr_eqb s) admins); cbn [negb bind];
      [| split; eexists; [left |]; reflexivity].
    destruct (truthy (PStr text)); cbn [negb];
      [| split; eexists; [left |]; reflexivity].
    split.
    + destruct (AppV1.mcp_search_api_sync env text) as [r | e];
        cbn [bind try_except].
      * destruct (AppV1.format_search_api_slack_message text r)
          as [msg | e]; cbn [bind try_except];
          eexists; right; eexists; reflexivity.
      * eexists; right; eexists; reflexivity.
    + destruct (App.mcp_search_api_sync env text) as [raw | e];
        cbn [bind try_except]; eexists; reflexivity.
Qed.

(** With the variable [ADMIN_USER_IDS] unset, or holding nothing but
    commas and white space, the module still starts (it prints its
    warning) when the other variables are set, and then both handlers
    refuse every command. *)
Theorem empty_allowlist_refuses_everyone
    (e : Config.SlackEnv) (env : Env) (body : dict) :
  blank_allowlist (Config.ADMIN_USER_IDS_var e) ->
  (truthy (Config.getenv (Config.SLACK_BOT_TOKEN e)) = true ->
   truthy (Config.getenv (Config.SLACK_SIGNING_SECRET e)) = true ->
   truthy (Config.getenv (Config.JC_API_KEY e)) = true ->
   Config.startup e = Ok true)
  /\ (slack_value (dict_lookup (lit "user_id") body) ->
      AppV1.handle_jc_command env
        (Config.ADMIN_USER_IDS (Config.ADMIN_USER_IDS_var e)) body
      = Ok [no_entry_message]
      /\ App.handle_jc_command env
           (Config.ADMIN_USER_IDS (Config.ADMIN_USER_IDS_var e)) body
         = Ok [no_entry_message]).
Proof.
  intros Hb. rewrite (blank_allowlist_is_empty _ Hb). split.
  - intros H1 H2 H3. unfold Config.startup.
    rewrite H1, H2, H3, (blank_allowlist_is_empty _ Hb). reflexivity.
  - intros Hu.
    unfold AppV1.handle_jc_command, App.handle_jc_command. cbv zeta.
    destruct (slack_user_id body Hu) as [Euid | [s Euid]]; rewrite Euid.
    + split; reflexivity.
    + destruct (truthy (PStr s)); split; reflexivity.
Qed.

Lemma app_message_length (text dump : pystr) :
  length (app_message text dump) = length text + length dump + 45.
Proof.
  unfold app_message. rewrite !length_app. cbn. lia.
Qed.

(** The message that app.py delivers for a served command is the query
    and the fence, 45 characters, around the bounded dump: at most the
    length of the query plus 2861 characters, hence under Slack's 3000
    whenever the query has at most 138 characters. *)
Theorem app_message_bound
    (env : Env) (admins : list pystr) (body : dict) (user text raw_json : pystr) :
  command_of admins body user text ->
  App.mcp_search_api_sync env text = Ok raw_json ->
  exists msg,
    App.handle_jc_command env admins body = Ok [msg]
    /\ length msg
       = length text + length (App.truncated raw_json App.MAX_LEN) + 45
    /\ length msg <= length text + 2861
    /\ (length text <= 138 -> length msg < 3000).
Proof.
  intros Hcmd Hcall.
  destruct (command_of_admin _ _ _ _ Hcmd) as (Hu & Htu & Hadm & Htt).
  destruct Hcmd as (_ & _ & _ & Hstrip & _).
  exists (app_message text (App.truncated raw_json App.MAX_LEN)).
  split.
  - unfold App.handle_jc_command. cbv zeta.
    rewrite Hu, Htu. cbn [App.is_admin bind]. rewrite Hadm.
    cbn [bind negb orb]. rewrite Hstrip. cbn [bind]. rewrite Htt.
    cbn [negb]. rewrite Hcall. reflexivity.
  - rewrite app_message_length.
    pose proof (truncated_length raw_json App.MAX_LEN) as Hlen.
    change (length App.truncation_marker) with 16 in Hlen.
    change App.MAX_LEN with 2800 in *.
    repeat split; lia.
Qed.

End HandlerShape.

(** ** The formatters on payloads without rows, with too many rows and
    with rows that fail *)

(** The lines before the results section are strings (for the command
    line: when the explanation is one). *)
Ltac cli_preamble_is_text inner He :=
  unfold cli_preamble;
  let He' := fresh "He" in
  assert (He' : truthy (explanation_of inner) = false
                \/ is_str (explanation_of inner) = true)
    by (unfold explanation_is_text in He; unfold explanation_of, dict_get;
        destruct (dict_lookup (lit "explanation") inner); auto);
  destruct He' as [He' | He'];
  [ rewrite He';
    destruct (truthy (rationale_of inner));
    destruct (is_None (query_time_of inner)); reflexivity
  | destruct (explanation_of inner); try discriminate He';
    match goal with
    | |- context [truthy (PStr ?s)] => destruct (truthy (PStr s))
    end;
    destruct (truthy (rationale_of inner));
    destruct (is_None (query_time_of inner)); reflexivity ].

Ltac slack_preamble_is_text inner :=
  unfold slack_preamble;
  destruct (truthy (explanation_of inner));
  destruct (truthy (rationale_of inner));
  destruct (is_None (query_time_of inner)); reflexivity.

Section FormatterEdges.
Context `{PyLib}.

Lemma dict_get_head (k : pystr) (v dflt : pyval) (d : dict) :
  dict_get ((k, v) :: d) k dflt = v.
Proof. unfold dict_get. cbn. now rewrite pystr_eqb_refl. Qed.

(** What the formatters read of the payload before the results
    section, when [query_result] is a mapping with a readable
    [metadata]. *)
Lemma metadata_read (inner qr : dict) :
  dict_lookup (lit "query_result") inner = Some (PDict qr) ->
  match dict_lookup (lit "metadata") qr with
  | Some md => truthy md = false \/ is_dict md = true
  | None => True
  end ->
  exists m,
    py_or (dict_get qr (lit "metadata") (PDict [])) (PDict []) = PDict m
    /\ dict_get m (lit "queryTime") PNone = query_time_of inner.
Proof.
  intros Hq Hm. unfold query_time_of, dict_get. rewrite Hq.
  destruct (dict_lookup (lit "metadata") qr) as [md |].
  - destruct Hm as [Hm | Hm].
    + exists []. unfold py_or. rewrite Hm. split; [reflexivity |].
      destruct md; try reflexivity. destruct d; [reflexivity | discriminate Hm].
    + destruct md; try discriminate Hm.
      exists d. split; destruct d; reflexivity.
  - exists []. split; reflexivity.
Qed.

Lemma payload_read_without_results (inner : dict) :
  without_results inner ->
  exists qr m,
    py_or (dict_get inner (lit "query_result") (PDict [])) (PDict []) = PDict qr
    /\ py_or (dict_get qr (lit "metadata") (PDict [])) (PDict []) = PDict m
    /\ py_or (dict_get qr (lit "results") (PList [])) (PList []) = PList []
    /\ dict_get m (lit "queryTime") PNone = query_time_of inner.
Proof.
  unfold without_results. intros Hw.
  assert (Hempty : forall q,
             dict_lookup (lit "query_result") inner = q ->
             match q with Some v => truthy v = false | None => True end ->
             query_time_of inner = PNone
             /\ py_or (dict_get inner (lit "query_result") (PDict [])) (PDict [])
                = PDict []).
  { intros q Eq Hq. unfold query_time_of, dict_get. rewrite Eq.
    destruct q as [v |]; [| split; reflexivity].
    unfold py_or. rewrite Hq. split; [| reflexivity].
    destruct v; try reflexivity. destruct d; [reflexivity | discriminate Hq]. }
  destruct (dict_lookup (lit "query_result") inner) as [q |] eqn:Eq.
  - destruct Hw as [Hf | (qr & -> & Hm & Hr)].
    + destruct (Hempty (Some q) eq_refl Hf) as [Hqt Hqr].
      exists [], []. rewrite Hqt, Hqr. repeat split.
    + destruct (metadata_read inner qr Eq Hm) as (m & Hmd & Hqt).
      exists qr, m. repeat split; try assumption.
      * unfold dict_get. rewrite Eq. destruct qr; reflexivity.
      * unfold dict_get.
        destruct (dict_lookup (lit "results") qr) as [v |]; [| reflexivity].
        unfold py_or. now rewrite Hr.
  - destruct (Hempty None eq_refl I) as [Hqt Hqr].
    exists [], []. rewrite Hqt, Hqr. repeat split.
Qed.

(** A printable payload without result rows (no [query_result], an
    empty one, or one whose [results] is absent, [None] or empty) is
    rendered as the
    lines of explanation, rationale and query time followed by the line
    that says that there are no results, and nothing raises.  Both front
    ends; on the command line for an explanation that is a string. *)
Theorem format_without_results (inner : dict) :
  without_results inner ->
  printable (PDict inner) = true ->
  AppV1._format_search_api_results inner
  = Ok (join nl (slack_preamble inner ++ [lit "_No results found._"]))
  /\ (explanation_is_text inner ->
      JcCli._format_search_api_results inner
      = Ok (join nl (cli_preamble inner ++ [lit "No results found."]))).
Proof.
  intros Hw _.
  destruct (payload_read_without_results inner Hw)
    as (qr & m & Hq & Hm & Hr & Hqt).
  split.
  - unfold AppV1._format_search_api_results. cbv zeta.
    rewrite Hq. cbn [get bind]. rewrite Hm, Hr. cbn [get bind].
    apply (slack_results_section_rendered [] _ (slack_preamble inner) []);
      [| constructor].
    rewrite Hqt. fold (explanation_of inner) (rationale_of inner).
    slack_preamble_is_text inner.
  - intros He.
    unfold JcCli._format_search_api_results. cbv zeta.
    rewrite Hq. cbn [get bind]. rewrite Hm, Hr. cbn [get bind].
    apply (cli_results_section_rendered [] _ (cli_preamble inner) []);
      [| constructor].
    rewrite Hqt. fold (explanation_of inner) (rationale_of inner).
    cli_preamble_is_text inner He.
Qed.

Lemma cli_results_section_window (rs rs' lines : list pyval) :
  firstn 20 rs = firstn 20 rs' -> length rs = length rs' ->
  JcCli.results_section (py_or (PList rs) (PList [])) lines
  = JcCli.results_section (py_or (PList rs') (PList [])) lines.
Proof.
  intros Hw Hn. unfold JcCli.results_section.
  destruct rs as [| r rs1]; destruct rs' as [| r' rs1']; try discriminate Hn;
    [reflexivity |].
  cbn [py_or truthy negb py_len bind slice_to py_iter].
  unfold JcCli.MAX_ROWS. now rewrite Hw, Hn.
Qed.

Lemma slack_results_section_window (rs rs' lines : list pyval) :
  firstn 20 rs = firstn 20 rs' -> length rs = length rs' ->
  AppV1.results_section (py_or (PList rs) (PList [])) lines
  = AppV1.results_section (py_or (PList rs') (PList [])) lines.
Proof.
  intros Hw Hn. unfold AppV1.results_section.
  destruct rs as [| r rs1]; destruct rs' as [| r' rs1']; try discriminate Hn;
    [reflexivity |].
  cbn [py_or truthy negb py_len bind slice_to py_iter].
  unfold AppV1.MAX_ROWS. now rewrite Hw, Hn.
Qed.

(** Rows beyond the twentieth are never read: two payloads that differ
    only in such rows, and have as many rows, are rendered alike by
    either formatter, also when those rows are no mappings at all. *)
Theorem rows_beyond_twenty_are_not_read
    (others query_others : dict) (rs rs' : list pyval) :
  firstn 20 rs = firstn 20 rs' ->
  length rs = length rs' ->
  JcCli._format_search_api_results (with_results others query_others rs)
  = JcCli._format_search_api_results (with_results others query_others rs')
  /\ AppV1._format_search_api_results (with_results others query_others rs)
     = AppV1._format_search_api_results (with_results others query_others rs').
Proof.
  intros Hw Hn.
  assert (Hq : forall l,
             py_or (dict_get (with_results others query_others l)
                      (lit "query_result") (PDict [])) (PDict [])
             = PDict ((lit "results", PList l) :: query_others)).
  { intros l. unfold with_results. now rewrite dict_get_head. }
  assert (Hr : forall l,
             dict_get ((lit "results", PList l) :: query_others)
               (lit "results") (PList []) = PList l).
  { intros l. apply dict_get_head. }
  assert (Hmd : forall l,
             dict_get ((lit "results", PList l) :: query_others)
               (lit "metadata") (PDict [])
             = dict_get query_others (lit "metadata") (PDict [])).
  { intros l. reflexivity. }
  assert (He : forall l k,
             k <> lit "query_result" ->
             dict_get (with_results others query_others l) k PNone
             = dict_get others k PNone).
  { intros l k Hk. unfold with_results, dict_get. cbn [dict_lookup].
    destruct (pystr_eqb (lit "query_result") k) eqn:E; [| reflexivity].
    apply pystr_eqb_eq in E. congruence. }
  split.
  - unfold JcCli._format_search_api_results. cbv zeta.
    rewrite !Hq. cbn [get bind]. rewrite !Hr, !Hmd.
    rewrite !(He _ (lit "explanation")), !(He _ (lit "rationale"))
      by discriminate.
    destruct (get _ (lit "queryTime") PNone) as [qt | e]; cbn [bind];
      [| reflexivity].
    now apply cli_results_section_window.
  - unfold AppV1._format_search_api_results. cbv zeta.
    rewrite !Hq. cbn [get bind]. rewrite !Hr, !Hmd.
    rewrite !(He _ (lit "explanation")), !(He _ (lit "rationale"))
      by discriminate.
    destruct (get _ (lit "queryTime") PNone) as [qt | e]; cbn [bind];
      [| reflexivity].
    now apply slack_results_section_window.
Qed.









End FormatterEdges.

(** ** Rows of the data model *)


Section RowEdges.
Context `{PyLib}.



Lemma well_formed_row_reduces (row : pyval) :
  well_formed_row row -> exists fm, Shared.row_field_map row = Ok fm.
Proof.
  intros (rd & -> & Hf). unfold Shared.row_field_map.
  cbn [get bind]. unfold dict_get.
  destruct (dict_lookup (lit "fields") rd) as [v |];
    [| exists []; reflexivity].
  destruct Hf as [Hf | (es & -> & Hes)].
  - unfold py_or. rewrite Hf. exists []. reflexivity.
  - destruct (reduce_fields_reads es [] Hes) as (fm & Hfm & _);
      [constructor | constructor |].
    exists fm. destruct es; [cbn in *; congruence | exact Hfm].
Qed.

(** A printable row of the data model fails in one way only: it is
    rendered by both front ends unless it qualifies for the identity line and its
    first or last name is present without being a string, and then both
    raise [TypeError]. *)
Theorem data_model_row_fails_only_on_names (row : pyval) :
  well_formed_row row ->
  printable row = true ->
  exists fm,
    Shared.row_field_map row = Ok fm
    /\ ((exists cli_line slack_line,
            JcCli.format_row row = Ok cli_line
            /\ AppV1.format_row row = Ok slack_line
            /\ (qualifies fm = false
                \/ (is_str (first_name_of fm) = true
                    /\ is_str (last_name_of fm) = true)))
        \/ (JcCli.format_row row = Raise TypeError
            /\ AppV1.format_row row = Raise TypeError
            /\ qualifies fm = true
            /\ (is_str (first_name_of fm) = false
                \/ is_str (last_name_of fm) = false))).
Proof.
  intros Hrow _. destruct (well_formed_row_reduces row Hrow) as [fm Hfm].
  exists fm. split; [exact Hfm |].
  destruct (qualifies fm) eqn:Hq.
  - unfold JcCli.format_row, AppV1.format_row.
    rewrite Hfm; cbn [bind]. cbv zeta.
    fold (first_name_of fm) (last_name_of fm) (email_of fm)
         (username_of fm) (uid_of fm).
    unfold qualifies in Hq. rewrite !truthy_py_or, orb_assoc, Hq.
    destruct (first_name_of fm) as [| | | | first | |];
      try (right; repeat split; left; reflexivity).
    destruct (last_name_of fm) as [| | | | last | |];
      try (right; repeat split; right; reflexivity).
    left. cbn [py_add bind py_strip]. do 2 eexists.
    split; [reflexivity | split; [reflexivity |]]. right. split; reflexivity.
  - destruct (format_row_generic row fm Hfm Hq) as [Hc Hs].
    left. exists (cli_generic_line fm), (slack_generic_line fm).
    repeat split; auto.
Qed.

End RowEdges.

(** ** The message builders and [main] *)

Section BuilderFacts.
Context `{PyLib} `{McpClient} `{ReprLib} `{Console}.

(** The message builders raise exactly what the extractor raises on
    the envelope or the formatter raises on the extracted payload.
    Without a payload they return the fallback text, also when
    [model_dump_json] raises: the command line takes the whole raw dump,
    Slack its first 2700 characters. *)
Theorem builders_raise_with_extractor_or_formatter
    (user_query : pystr) (r : CallToolResult) :
  (forall e,
      JcCli.format_for_cli user_query r = Raise e
      <-> Shared._extract_inner_json_from_search_api_result r = Raise e
          \/ exists inner,
               Shared._extract_inner_json_from_search_api_result r
               = Ok (Some inner)
               /\ JcCli._format_search_api_results inner = Raise e)
  /\ (forall e,
      AppV1.format_search_api_slack_message user_query r = Raise e
      <-> Shared._extract_inner_json_from_search_api_result r = Raise e
          \/ exists inner,
               Shared._extract_inner_json_from_search_api_result r
               = Ok (Some inner)
               /\ AppV1._format_search_api_results inner = Raise e)
  /\ (Shared._extract_inner_json_from_search_api_result r = Ok None ->
      JcCli.format_for_cli user_query r
      = Ok (cli_fallback_message user_query (raw_dump r))
      /\ AppV1.format_search_api_slack_message user_query r
         = Ok (slack_fallback_message user_query (firstn 2700 (raw_dump r)))).
Proof.
  unfold JcCli.format_for_cli, AppV1.format_search_api_slack_message.
  destruct (Shared._extract_inner_json_from_search_api_result r)
    as [[inner |] | e0]; cbn [bind].
  - split; [| split].
    + intros e. split.
      * intros Hr. right. exists inner. split; [reflexivity |].
        destruct (JcCli._format_search_api_results inner);
          [discriminate Hr | exact Hr].
      * intros [Hx | (inner' & Hi & Hr)]; [discriminate Hx |].
        injection Hi as <-. now rewrite Hr.
    + intros e. split.
      * intros Hr. right. exists inner. split; [reflexivity |].
        destruct (AppV1._format_search_api_results inner);
          [discriminate Hr | exact Hr].
      * intros [Hx | (inner' & Hi & Hr)]; [discriminate Hx |].
        injection Hi as <-. now rewrite Hr.
    + intros Hn. discriminate Hn.
  - assert (Hraw : try_except (model_dump_json r)
                     (fun _ => Ok (str_result r)) = Ok (raw_dump r)).
    { unfold raw_dump. destruct (model_dump_json r); reflexivity. }
    rewrite Hraw. cbn [bind].
    split; [| split].
    + intros e. split; [intros Hr; discriminate Hr |].
      intros [Hx | (inner & Hi & _)]; [discriminate Hx | discriminate Hi].
    + intros e. split; [intros Hr; discriminate Hr |].
      intros [Hx | (inner & Hi & _)]; [discriminate Hx | discriminate Hi].
    + intros _. split; reflexivity.
  - split; [| split].
    + intros e. split; [intros Hr; left; injection Hr as ->; reflexivity |].
      intros [Hx | (inner & Hi & _)];
        [injection Hx as ->; reflexivity | discriminate Hi].
    + intros e. split; [intros Hr; left; injection Hr as ->; reflexivity |].
      intros [Hx | (inner & Hi & _)];
        [injection Hx as ->; reflexivity | discriminate Hi].
    + intros Hn. discriminate Hn.
Qed.

(** On the command line the words after the program name are joined
    with single spaces into the query, and nothing is read from the
    terminal: several words behave as the one argument that holds
    them. *)
Theorem main_joins_its_arguments
    (env : Env) (prog : pystr) (args : list pystr) (line line' : py pystr) :
  args <> [] ->
  JcCli.main env (prog :: args) line
  = JcCli.main env [prog; join (lit " ") args] line'.
Proof.
  intros Hargs. unfold JcCli.main. cbv zeta.
  destruct args as [| a args']; [contradiction |]. reflexivity.
Qed.





End BuilderFacts.

(** ** The size bounder, again *)

(** Bounding is idempotent and keeps the head of the text: a text that
    was bounded is not changed by bounding it again with the same
    budget, and the first [max_chars] characters of the result are those
    of the text. *)
Theorem truncated_is_idempotent (text : pystr) (max_chars : nat) :
  App.truncated (App.truncated text max_chars) max_chars
  = App.truncated text max_chars
  /\ firstn max_chars (App.truncated text max_chars) = firstn max_chars text.
Proof.
  unfold App.truncated.
  destruct (Nat.ltb_spec max_chars (length text)) as [Hlt | Hle].
  - assert (Hhead : firstn max_chars (firstn max_chars text
                                      ++ App.truncation_marker)
                    = firstn max_chars text).
    { rewrite firstn_app, length_firstn.
      replace (max_chars - Nat.min max_chars (length text)) with 0 by lia.
      rewrite firstn_firstn, Nat.min_id. cbn [firstn]. apply app_nil_r. }
    split; [| exact Hhead].
    destruct (Nat.ltb_spec max_chars
                (length (firstn max_chars text ++ App.truncation_marker)))
      as [_ | Hfalse].
    + now rewrite Hhead.
    + rewrite length_app, length_firstn in Hfalse.
      change (length App.truncation_marker) with 16 in Hfalse. lia.
  - destruct (Nat.ltb_spec max_chars (length text)) as [Hlt | _]; [lia |].
    split; reflexivity.
Qed.

(** ** The further properties on sample inputs *)

(** A command without sender and one of a stranger. *)
Example handlers_reject_unauthorized_witness :
  @AppV1.handle_jc_command sample_lib unreachable_client sample_env
    [lit "U1"] [(lit "text", PStr (lit "users"))] = Ok [no_entry_message]
  /\ @App.handle_jc_command sample_lib unreachable_client sample_env
       [lit "U1"] [(lit "user_id", PStr (lit "U2"));
                   (lit "text", PStr (lit "users"))]
     = Ok [no_entry_message].
Proof.
  split.
  - apply (@handlers_reject_unauthorized sample_lib unreachable_client).
    left; reflexivity.
  - apply (@handlers_reject_unauthorized sample_lib unreachable_client).
    right. exists (lit "U2"). split; [reflexivity |].
    intros [Hin | []]. discriminate Hin.
Defined.

(** A command of three blanks. *)
Example handlers_ask_for_text_witness :
  @AppV1.handle_jc_command sample_lib unreachable_client sample_env
    [lit "U1"] [(lit "user_id", PStr (lit "U1")); (lit "text", PStr (lit "   "))]
  = Ok [usage_message].
Proof.
  apply (@handlers_ask_for_text sample_lib unreachable_client sample_env
           [lit "U1"] _ (lit "U1")).
  repeat split; try discriminate; [left; reflexivity |].
  right. exists (lit "   "). split; [reflexivity | repeat constructor].
Defined.

(** The remote end cannot be reached; and it answers with a row that
    the formatter cannot render. *)
Example handlers_report_exceptions_witness :
  @App.handle_jc_command sample_lib unreachable_client sample_env
    [lit "U1"] sample_body
  = Ok [@warning_message sample_lib (OtherException (lit "connect"))]
  /\ @AppV1.handle_jc_command sample_lib
       (client_returning numeric_name_envelope) sample_env [lit "U1"]
       sample_body
     = Ok [working_message (lit "users");
           @warning_message sample_lib TypeError].
Proof.
  assert (Hcmd : command_of [lit "U1"] sample_body (lit "U1") (lit "users")).
  { repeat split; try discriminate. left; reflexivity. }
  split.
  - apply (proj2 (@handlers_report_exceptions sample_lib unreachable_client
                    sample_env [lit "U1"] sample_body (lit "U1") (lit "users")
                    (OtherException (lit "connect")) Hcmd)).
    reflexivity.
  - apply (proj1 (@handlers_report_exceptions sample_lib
                    (client_returning numeric_name_envelope)
                    sample_env [lit "U1"] sample_body (lit "U1") (lit "users")
                    TypeError Hcmd)).
    right. exists numeric_name_envelope. split; reflexivity.
Defined.

Example handlers_always_respond_witness :
  exists m,
    @App.handle_jc_command sample_lib (client_returning error_envelope)
      sample_env [lit "U1"] sample_body = Ok [m].
Proof.
  apply (proj2 (@handlers_always_respond sample_lib
                  (client_returning error_envelope) sample_env [lit "U1"]
                  sample_body eq_refl eq_refl)).
Defined.

Example empty_allowlist_refuses_everyone_witness :
  Config.startup blank_allowlist_env = Ok true
  /\ @AppV1.handle_jc_command sample_lib (client_returning error_envelope)
       sample_env
       (Config.ADMIN_USER_IDS (Config.ADMIN_USER_IDS_var blank_allowlist_env))
       sample_body
     = Ok [no_entry_message].
Proof.
  assert (Hb : blank_allowlist (Config.ADMIN_USER_IDS_var blank_allowlist_env)).
  { cbn. repeat constructor; (left; reflexivity) || (right; reflexivity). }
  split.
  - apply (proj1 (@empty_allowlist_refuses_everyone sample_lib
                    (client_returning error_envelope) blank_allowlist_env
                    sample_env sample_body Hb)); reflexivity.
  - apply (proj2 (@empty_allowlist_refuses_everyone sample_lib
                    (client_returning error_envelope) blank_allowlist_env
                    sample_env sample_body Hb)). reflexivity.
Defined.

Example app_message_bound_witness :
  exists msg,
    @App.handle_jc_command sample_lib
      (client_returning numeric_name_envelope) sample_env [lit "U1"]
      sample_body = Ok [msg]
    /\ length msg < 3000.
Proof.
  destruct (@app_message_bound sample_lib
              (client_returning numeric_name_envelope) sample_env [lit "U1"]
              sample_body (lit "U1") (lit "users") (lit "{}"))
    as (msg & Hmsg & _ & _ & Hlt).
  - repeat split; try discriminate. left; reflexivity.
  - reflexivity.
  - exists msg. split; [exact Hmsg |]. apply Hlt. cbn. lia.
Defined.

(** A payload with an explanation and nothing else. *)
Example format_without_results_witness :
  @AppV1._format_search_api_results sample_lib sample_object
  = Ok (join nl [lit "*Explanation:*" ++ nl ++ lit "x" ++ nl;
                 lit "_No results found._"])
  /\ @JcCli._format_search_api_results sample_lib sample_object
     = Ok (join nl [lit "Explanation:"; lit "x"; []; lit "No results found."]).
Proof.
  split.
  - apply (proj1 (@format_without_results sample_lib sample_object I
                    eq_refl)).
  - apply (proj2 (@format_without_results sample_lib sample_object I
                    eq_refl)).
    cbn. right; reflexivity.
Defined.

(** Twenty device rows followed by a number, and by a device row. *)
Example rows_beyond_twenty_are_not_read_witness :
  @JcCli._format_search_api_results sample_lib
    (with_results [] [] (repeat device_row 20 ++ [PInt 5]))
  = @JcCli._format_search_api_results sample_lib
      (with_results [] [] (repeat device_row 20 ++ [device_row])).
Proof.
  apply (proj1 (@rows_beyond_twenty_are_not_read sample_lib [] []
                  (repeat device_row 20 ++ [PInt 5])
                  (repeat device_row 20 ++ [device_row])
                  eq_refl eq_refl)).
Defined.




Example data_model_row_fails_only_on_names_witness :
  exists fm,
    Shared.row_field_map numeric_name_row = Ok fm
    /\ ((exists cli_line slack_line,
            @JcCli.format_row sample_lib numeric_name_row = Ok cli_line
            /\ @AppV1.format_row sample_lib numeric_name_row = Ok slack_line
            /\ (qualifies fm = false
                \/ (is_str (first_name_of fm) = true
                    /\ is_str (last_name_of fm) = true)))
        \/ (@JcCli.format_row sample_lib numeric_name_row = Raise TypeError
            /\ @AppV1.format_row sample_lib numeric_name_row = Raise TypeError
            /\ qualifies fm = true
            /\ (is_str (first_name_of fm) = false
                \/ is_str (last_name_of fm) = false))).
Proof.
  apply (@data_model_row_fails_only_on_names sample_lib numeric_name_row).
  - eexists. split; [reflexivity |]. right. eexists. split; [reflexivity |].
    repeat constructor.
  - reflexivity.
Defined.

(** The envelope of a tool error, for which [model_dump_json] raises;
    and an envelope whose [content] is a number. *)
Example builders_raise_with_extractor_or_formatter_witness :
  @JcCli.format_for_cli sample_lib (lit "users") error_envelope
  = Ok (cli_fallback_message (lit "users") (lit "CallToolResult()"))
  /\ @AppV1.format_search_api_slack_message sample_lib (lit "users")
       number_content_envelope
     = Raise TypeError.
Proof.
  split.
  - apply (proj1 (proj2 (proj2 (@builders_raise_with_extractor_or_formatter
                                  sample_lib (lit "users") error_envelope))
                    eq_refl)).
  - apply (proj2 (proj1 (proj2 (@builders_raise_with_extractor_or_formatter
                                  sample_lib (lit "users")
                                  number_content_envelope))
                    TypeError)).
    left. reflexivity.
Defined.

Example main_joins_its_arguments_witness :
  @JcCli.main sample_lib (client_returning error_envelope) sample_repr
    utf8_console sample_env [lit "jc-cli.py"; lit "show"; lit "users"]
    (Raise (OtherException (lit "EOFError")))
  = @JcCli.main sample_lib (client_returning error_envelope) sample_repr
      utf8_console sample_env [lit "jc-cli.py"; lit "show users"]
      (Ok (lit "ignored")).
Proof.
  apply (@main_joins_its_arguments sample_lib (client_returning error_envelope)
           sample_repr utf8_console sample_env (lit "jc-cli.py")
           [lit "show"; lit "users"]).
  discriminate.
Defined.


(** ** The display name *)




Section DisplayName.
Context `{PyLib}.


End DisplayName.

